(** * datascraper: the BFS crawl engine of [g4.py]

    A shallow embedding of the crawl engine of [AggressiveCrawlerGUI]:
    [start_scraping], [stop_scraping], [run_bfs] and [scrape_page], with the
    frontier ([queue] and [visited]) and the corpus file they work on, and
    the parts of Python's standard library that decide what they do
    ([str.strip], [int], [urllib.parse.urljoin], [urllib.parse.urlparse]).

    - The mutable fields of the GUI object, the log widget and the files on
      disk form an explicit state, [crawler]; methods pass it along.
    - The network, the faults of the file system and the Stop button form
      an explicit [world].  Calls on Tk widgets are taken to succeed.
    - A method returns a value or raises: [result].
    - Text is a [string] of bytes, the UTF-8 form of a Python [str]; an
      ASCII character is one byte.  [PyStr.strip] and [PyStr.int] look at
      ASCII white space and ASCII digits: they are [str.strip] on text that
      begins and ends with ASCII once the ASCII white space around it is
      gone ([PyStr.ascii_edged]), and [int] on ASCII text ([PyStr.isascii]).
      A theorem that depends on them has that as a hypothesis.
    - The [while] loop of [run_bfs] runs on fuel; [run_bfs_ends] shows that
      it always ends.  A run is the loop of one thread; Stop is seen at the
      loop test, as in the source. *)

From Stdlib Require Import ZArith Lia Ascii String List DecimalString DecimalPos.
From stdpp Require Import base decidable gmap strings list.

Local Open Scope string_scope.
Local Open Scope Z_scope.

(** ** Python exceptions

    The exceptions that can leave the modelled methods: [OSError] from the
    file system, [ValueError] from [urllib.parse], [UnicodeEncodeError] from
    [f.write] (in Python a subclass of [ValueError], kept apart here), and
    [OtherError] for any other exception, such as the one [BeautifulSoup]
    raises when the parser rejects the markup.  A call either returns a
    value or raises. *)

Inductive exn : Type :=
| OSError
| ValueError
| UnicodeEncodeError
| OtherError.

Inductive result (A : Type) : Type :=
| Return (a : A)
| Raise (e : exn).

Arguments Return {A} a.
Arguments Raise {A} e.

(** ** Python strings *)

Module PyStr.

Definition code (c : ascii) : nat := nat_of_ascii c.

(** [str.isspace] on the ASCII range: TAB, LF, VT, FF, CR, FS, GS, RS, US
    and the space. *)
Definition isspace (c : ascii) : bool :=
  ((9 <=? code c) && (code c <=? 13))%nat
  || ((28 <=? code c) && (code c <=? 32))%nat.

(** The white space that [int] skips around a number in ASCII text
    ([Py_ISSPACE]): TAB, LF, VT, FF, CR and the space, but not FS, GS, RS
    and US. *)
Definition int_space (c : ascii) : bool :=
  ((9 <=? code c) && (code c <=? 13))%nat || (code c =? 32)%nat.

(** [s.isascii()] *)
Fixpoint isascii (s : string) : bool :=
  match s with
  | EmptyString => true
  | String c s' => (code c <? 128)%nat && isascii s'
  end.

Definition isdigit (c : ascii) : bool :=
  ((48 <=? code c) && (code c <=? 57))%nat.

Definition isupper (c : ascii) : bool :=
  ((65 <=? code c) && (code c <=? 90))%nat.

Definition islower (c : ascii) : bool :=
  ((97 <=? code c) && (code c <=? 122))%nat.

Definition isalpha (c : ascii) : bool := isupper c || islower c.

Definition lower_char (c : ascii) : ascii :=
  if isupper c then ascii_of_nat (code c + 32) else c.

Fixpoint lower (s : string) : string :=
  match s with
  | EmptyString => EmptyString
  | String c s' => String (lower_char c) (lower s')
  end.

Definition is_empty (s : string) : bool :=
  match s with EmptyString => true | String _ _ => false end.

(** Truthiness of a [str]: the empty string is falsy. *)
Definition truthy (s : string) : bool := negb (is_empty s).

Fixpoint lstrip_by (p : ascii -> bool) (s : string) : string :=
  match s with
  | EmptyString => EmptyString
  | String c s' => if p c then lstrip_by p s' else s
  end.

Fixpoint rstrip_by (p : ascii -> bool) (s : string) : string :=
  match s with
  | EmptyString => EmptyString
  | String c s' =>
      match rstrip_by p s' with
      | EmptyString => if p c then EmptyString else String c EmptyString
      | r => String c r
      end
  end.

(** [s.strip()], for [s] that is [ascii_edged]. *)
Definition strip (s : string) : string := rstrip_by isspace (lstrip_by isspace s).

Fixpoint last_char (c : ascii) (s : string) : ascii :=
  match s with
  | EmptyString => c
  | String d s' => last_char d s'
  end.

(** Without the ASCII white space around it, [s] is empty or begins and
    ends with an ASCII character.  Then [str.strip] removes the same
    characters as [strip]: both stop at those two characters, whatever
    lies between them. *)
Definition ascii_edged (s : string) : bool :=
  match strip s with
  | EmptyString => true
  | String c t => (code c <? 128)%nat && (code (last_char c t) <? 128)%nat
  end.

Fixpoint remove_by (p : ascii -> bool) (s : string) : string :=
  match s with
  | EmptyString => EmptyString
  | String c s' => if p c then remove_by p s' else String c (remove_by p s')
  end.

Fixpoint contains (c : ascii) (s : string) : bool :=
  match s with
  | EmptyString => false
  | String d s' => if Ascii.eqb c d then true else contains c s'
  end.

(** [s.partition(c)]: the text before the first [c] and the text after it;
    [None] when [c] does not occur. *)
Fixpoint partition (c : ascii) (s : string) : option (string * string) :=
  match s with
  | EmptyString => None
  | String d s' =>
      if Ascii.eqb c d then Some (EmptyString, s')
      else match partition c s' with
           | Some (a, b) => Some (String d a, b)
           | None => None
           end
  end.

(** [s.rpartition(c)], split at the last [c]. *)
Fixpoint rpartition (c : ascii) (s : string) : option (string * string) :=
  match s with
  | EmptyString => None
  | String d s' =>
      match rpartition c s' with
      | Some (a, b) => Some (String d a, b)
      | None => if Ascii.eqb c d then Some (EmptyString, s') else None
      end
  end.

(** [s.split(c)]: never the empty list. *)
Fixpoint split (c : ascii) (s : string) : list string :=
  match s with
  | EmptyString => [EmptyString]
  | String d s' =>
      if Ascii.eqb c d then EmptyString :: split c s'
      else match split c s' with
           | [] => [String d EmptyString]
           | w :: ws => String d w :: ws
           end
  end.

(** [sep.join(parts)] *)
Fixpoint join (sep : string) (parts : list string) : string :=
  match parts with
  | [] => EmptyString
  | [w] => w
  | w :: ws => w ++ sep ++ join sep ws
  end.

(** [s.startswith(p)] *)
Definition startswith (s p : string) : bool := String.prefix p s.

(** [str(n)] for an integer. *)
Definition of_Z (n : Z) : string := NilZero.string_of_int (Z.to_int n).

Fixpoint digits_value (acc : Z) (s : string) : Z :=
  match s with
  | EmptyString => acc
  | String c s' =>
      if isdigit c then digits_value (10 * acc + Z.of_nat (code c - 48)) s'
      else digits_value acc s'
  end.

(** Decimal digits with single underscores between them, as [int] accepts:
    [prev_digit] tells whether the previous character was a digit. *)
Fixpoint digits_ok (prev_digit : bool) (s : string) : bool :=
  match s with
  | EmptyString => prev_digit
  | String c s' =>
      if isdigit c then digits_ok true s'
      else if Ascii.eqb c "_" then prev_digit && digits_ok false s'
      else false
  end.

Fixpoint digit_count (s : string) : nat :=
  match s with
  | EmptyString => O
  | String c s' => if isdigit c then S (digit_count s') else digit_count s'
  end.

(** [sys.get_int_max_str_digits()], which the program leaves at its
    default: [int] refuses text with more digits. *)
Definition max_str_digits : Z := 4300.

(** The digits after the sign: well formed and not too many. *)
Definition int_digits (d : string) : option Z :=
  if digits_ok false d && (Z.of_nat (digit_count d) <=? max_str_digits)
  then Some (digits_value 0 d) else None.

(** What [int] leaves of the text around the number. *)
Definition int_strip (s : string) : string :=
  rstrip_by int_space (lstrip_by int_space s).

(** [int(s)] for ASCII [s]: surrounding white space, an optional sign,
    then the digits; [None] stands for [ValueError]. *)
Definition int (s : string) : option Z :=
  match int_strip s with
  | String "-" d => option_map Z.opp (int_digits d)
  | String "+" d => int_digits d
  | d => int_digits d
  end.

End PyStr.

(** ** [urllib.parse]

    [urlsplit], [urlparse], [urlunsplit], [urlunparse] and [urljoin] of
    CPython 3.11, on ASCII text; [None] stands for the [ValueError] that
    [urlsplit] raises.  The validation of a bracketed host
    ([_check_bracketed_host], which calls [ipaddress]) is a parameter
    [bracketed_host_ok]; [_checknetloc] only acts on non-ASCII text and is
    omitted. *)

Module Urllib.

Import PyStr.

Definition uses_relative : list string :=
  [EmptyString; "ftp"; "http"; "gopher"; "nntp"; "imap"; "wais"; "file"; "https";
   "shttp"; "mms"; "prospero"; "rtsp"; "rtspu"; "sftp"; "svn"; "svn+ssh";
   "ws"; "wss"].

Definition uses_netloc : list string :=
  [EmptyString; "ftp"; "http"; "gopher"; "nntp"; "telnet"; "imap"; "wais"; "file";
   "mms"; "https"; "shttp"; "snews"; "prospero"; "rtsp"; "rtspu"; "rsync";
   "svn"; "svn+ssh"; "sftp"; "nfs"; "git"; "git+ssh"; "ws"; "wss"].

Definition uses_params : list string :=
  [EmptyString; "ftp"; "hdl"; "prospero"; "http"; "imap"; "https"; "shttp"; "rtsp";
   "rtspu"; "sip"; "sips"; "mms"; "sftp"; "tel"].

Definition member (s : string) (l : list string) : bool :=
  existsb (String.eqb s) l.

Definition scheme_char (c : ascii) : bool :=
  isalpha c || isdigit c
  || Ascii.eqb c "+" || Ascii.eqb c "-" || Ascii.eqb c ".".

Fixpoint all_chars (p : ascii -> bool) (s : string) : bool :=
  match s with
  | EmptyString => true
  | String c s' => p c && all_chars p s'
  end.

(** [_WHATWG_C0_CONTROL_OR_SPACE] *)
Definition c0_control_or_space (c : ascii) : bool := (code c <=? 32)%nat.

(** [_UNSAFE_URL_BYTES_TO_REMOVE]: TAB, CR and LF. *)
Definition unsafe_url_byte (c : ascii) : bool :=
  (code c =? 9)%nat || (code c =? 13)%nat || (code c =? 10)%nat.

Definition netloc_delim (c : ascii) : bool :=
  Ascii.eqb c "/" || Ascii.eqb c "?" || Ascii.eqb c "#".

(** [_splitnetloc(url, 2)], applied to the text after the two slashes. *)
Fixpoint splitnetloc (s : string) : string * string :=
  match s with
  | EmptyString => (EmptyString, EmptyString)
  | String c s' =>
      if netloc_delim c then (EmptyString, s)
      else let '(a, b) := splitnetloc s' in (String c a, b)
  end.

Definition drop2 (s : string) : string :=
  match s with
  | String _ (String _ r) => r
  | _ => EmptyString
  end.

Record split_result : Type := SplitResult {
  sr_scheme : string;
  sr_netloc : string;
  sr_path : string;
  sr_query : string;
  sr_fragment : string
}.

Record parse_result : Type := ParseResult {
  scheme : string;
  netloc : string;
  path : string;
  params : string;
  query : string;
  fragment : string
}.

Section Parse.

Variable bracketed_host_ok : string -> bool.

(** [_check_bracketed_netloc]; [false] when it raises. *)
Definition check_bracketed_netloc (netloc : string) : bool :=
  let hostname_and_port :=
    match rpartition "@" netloc with
    | Some (_, r) => r
    | None => netloc
    end in
  match partition "[" hostname_and_port with
  | Some (before_bracket, bracketed) =>
      if truthy before_bracket then false
      else
        let '(hostname, port) :=
          match partition "]" bracketed with
          | Some hp => hp
          | None => (bracketed, EmptyString)
          end in
        if truthy port && negb (startswith port ":") then false
        else bracketed_host_ok hostname
  | None =>
      let hostname :=
        match partition ":" hostname_and_port with
        | Some (h, _) => h
        | None => hostname_and_port
        end in
      bracketed_host_ok hostname
  end.

Definition urlsplit (url scheme : string) : option split_result :=
  let url := lstrip_by c0_control_or_space url in
  let scheme :=
    rstrip_by c0_control_or_space (lstrip_by c0_control_or_space scheme) in
  let url := remove_by unsafe_url_byte url in
  let scheme := remove_by unsafe_url_byte scheme in
  let '(scheme, url) :=
    match partition ":" url with
    | Some (String c0 pre, post) =>
        if isalpha c0 && all_chars scheme_char (String c0 pre)
        then (lower (String c0 pre), post)
        else (scheme, url)
    | _ => (scheme, url)
    end in
  let after_netloc :=
    if startswith url "//" then
      let '(netloc, rest) := splitnetloc (drop2 url) in
      let lb := contains "[" netloc in
      let rb := contains "]" netloc in
      if (lb && negb rb) || (rb && negb lb) then None
      else if lb && rb && negb (check_bracketed_netloc netloc)
           then None
           else Some (netloc, rest)
    else Some (EmptyString, url) in
  match after_netloc with
  | None => None
  | Some (netloc, url) =>
      let '(url, fragment) :=
        match partition "#" url with
        | Some uf => uf
        | None => (url, EmptyString)
        end in
      let '(url, query) :=
        match partition "?" url with
        | Some uq => uq
        | None => (url, EmptyString)
        end in
      Some (SplitResult scheme netloc url query fragment)
  end.

Definition splitparams (url : string) : string * string :=
  if contains "/" url then
    match rpartition "/" url with
    | Some (dir, leaf) =>
        match partition ";" leaf with
        | Some (leaf', params) => (dir ++ "/" ++ leaf', params)
        | None => (url, EmptyString)
        end
    | None => (url, EmptyString)
    end
  else
    match partition ";" url with
    | Some up => up
    | None => (url, EmptyString)
    end.

Definition urlparse (url scheme : string) : option parse_result :=
  match urlsplit url scheme with
  | None => None
  | Some (SplitResult scheme netloc url query fragment) =>
      let '(url, params) :=
        if member scheme uses_params && contains ";" url
        then splitparams url
        else (url, EmptyString) in
      Some (ParseResult scheme netloc url params query fragment)
  end.

Definition urlunsplit
    (scheme netloc url query fragment : string) : string :=
  let url :=
    if truthy netloc
       || (truthy scheme && member scheme uses_netloc
           && negb (startswith url "//"))
    then
      let url :=
        if truthy url && negb (startswith url "/") then "/" ++ url else url in
      "//" ++ netloc ++ url
    else url in
  let url := if truthy scheme then scheme ++ ":" ++ url else url in
  let url := if truthy query then url ++ "?" ++ query else url in
  if truthy fragment then url ++ "#" ++ fragment else url.

Definition urlunparse (p : parse_result) : string :=
  let url :=
    if truthy (params p) then path p ++ ";" ++ params p else path p in
  urlunsplit (scheme p) (netloc p) url (query p) (fragment p).

(** [segments[1:-1] = filter(None, segments[1:-1])] *)
Definition filter_middle (segments : list string) : list string :=
  match segments with
  | [] => []
  | first :: rest =>
      match rest with
      | [] => [first]
      | _ :: _ =>
          (first :: List.filter truthy (removelast rest)
             ++ [List.last rest EmptyString])%list
      end
  end.

(** The loop over the segments of [urljoin]: [..] pops, [.] is skipped. *)
Fixpoint resolve_segments
    (segments resolved_path : list string) : list string :=
  match segments with
  | [] => resolved_path
  | seg :: segments' =>
      if String.eqb seg ".." then
        resolve_segments segments' (removelast resolved_path)
      else if String.eqb seg "." then
        resolve_segments segments' resolved_path
      else resolve_segments segments' (resolved_path ++ [seg])%list
  end.

Definition urljoin (base url : string) : option string :=
  if is_empty base then Some url
  else if is_empty url then Some base
  else
    match urlparse base EmptyString with
    | None => None
    | Some b =>
        match urlparse url (scheme b) with
        | None => None
        | Some u =>
            if negb (String.eqb (scheme u) (scheme b))
               || negb (member (scheme u) uses_relative)
            then Some url
            else if member (scheme u) uses_netloc && truthy (netloc u)
            then Some (urlunparse u)
            else
              let netloc' :=
                if member (scheme u) uses_netloc then netloc b
                else netloc u in
              if is_empty (path u) && is_empty (params u) then
                let query' :=
                  if is_empty (query u) then query b else query u in
                Some (urlunparse
                          (ParseResult (scheme u) netloc' (path b)
                             (params b) query' (fragment u)))
              else
                let base_parts := split "/" (path b) in
                let base_parts :=
                  if is_empty (List.last base_parts EmptyString)
                  then base_parts
                  else removelast base_parts in
                let segments :=
                  if startswith (path u) "/" then split "/" (path u)
                  else filter_middle (base_parts ++ split "/" (path u))%list in
                let resolved_path := resolve_segments segments [] in
                let last_seg := List.last segments EmptyString in
                let resolved_path :=
                  if String.eqb last_seg "." || String.eqb last_seg ".."
                  then (resolved_path ++ [EmptyString])%list
                  else resolved_path in
                let joined := join "/" resolved_path in
                Some (urlunparse
                          (ParseResult (scheme u) netloc'
                             (if is_empty joined then "/" else joined)
                             (params u) (query u) (fragment u)))
        end
    end.

(** [urlparse(url).scheme], as [scrape_page] reads it. *)
Definition urlparse_scheme (url : string) : option string :=
  match urlparse url EmptyString with
  | None => None
  | Some p => Some (scheme p)
  end.

End Parse.

End Urllib.

(** ** The state of the crawler and its world *)

Definition LF : string := String (ascii_of_nat 10) EmptyString.

(** What is inserted into [output_area], one constructor per [insert] call
    of the source; [render] gives the text of each. *)
Inductive log_entry : Type :=
| InfoOutputFile (output_file : string)
| InfoStartingBFS (url : string)
| InfoStopRequested
| InfoFinished (page_count : Z)
| ErrorLine (url e : string)
| ScrapedLine (page_id : Z) (url : string).

Definition render (l : log_entry) : string :=
  match l with
  | InfoOutputFile output_file => "[INFO] Output file: " ++ output_file ++ LF
  | InfoStartingBFS url => "[INFO] Starting BFS from: " ++ url ++ LF
  | InfoStopRequested => "[INFO] Stop requested..." ++ LF
  | InfoFinished page_count =>
      LF ++ "[INFO] BFS finished. Total pages scraped: "
         ++ PyStr.of_Z page_count ++ LF
  | ErrorLine url e => "[ERROR] " ++ url ++ " => " ++ e ++ LF
  | ScrapedLine page_id url =>
      "[SCRAPED] Page #" ++ PyStr.of_Z page_id ++ ": " ++ url ++ LF
  end.

(** The parsed page: [soup.get_text(separator=LF)] and, for every [a]
    element in document order, [link.get("href")] ([None] when the
    attribute is missing). *)
Record soup : Type := Soup {
  get_text : string;
  find_all_a : list (option string)
}.

(** What fetching and parsing a page gives.  In the [try] block of
    [scrape_page], [requests.get] followed by [raise_for_status] raises a
    [RequestException] (with its message) or yields a response.  The two
    statements after the block parse it and give the parsed page
    ([Response]).  [Uncaught e] stands for an exception that the [try] block
    does not catch: [BeautifulSoup] or [get_text] raises [e] (the parser
    rejects the markup), or the fetch raises [e] and [e] is no
    [RequestException].  The text of a parsed page may hold a lone surrogate
    (from a character reference such as [&#xD800;]), which has no UTF-8 form
    and which [f.write] cannot encode: [Unencodable]. *)
Inductive fetch_result : Type :=
| RequestException (e : string)
| Response (page : soup)
| Uncaught (e : exn)
| Unencodable.

(** ** [requests]: what [raise_for_status] makes of an answer

    [requests.get] raises a [RequestException] (time-out, connection
    failure, too many redirects, ...) or returns the final response;
    [raise_for_status] then raises [HTTPError], a [RequestException], for
    the statuses 400 to 599 and for no other. *)
Record http_response : Type := HttpResponse {
  status_code : Z;
  reason : string;
  response_url : string
}.

(** The message of the [HTTPError] that [raise_for_status] raises, [None]
    when it returns. *)
Definition raise_for_status (resp : http_response) : option string :=
  if (400 <=? status_code resp) && (status_code resp <? 500) then
    Some (PyStr.of_Z (status_code resp) ++ " Client Error: " ++ reason resp
            ++ " for url: " ++ response_url resp)
  else if (500 <=? status_code resp) && (status_code resp <? 600) then
    Some (PyStr.of_Z (status_code resp) ++ " Server Error: " ++ reason resp
            ++ " for url: " ++ response_url resp)
  else None.

(** What [requests.get] does: it raises, or it returns a response whose
    body parses to [page]. *)
Inductive transfer : Type :=
| TransferFailed (e : string)
| Transferred (resp : http_response) (page : soup).

(** The [try] block of [scrape_page] on a transfer. *)
Definition try_get (t : transfer) : fetch_result :=
  match t with
  | TransferFailed e => RequestException e
  | Transferred resp page =>
      match raise_for_status resp with
      | Some e => RequestException e
      | None => Response page
      end
  end.

(** The fields of [AggressiveCrawlerGUI] that the engine reads and writes,
    the threads it has started (each with its [max_pages] argument), the
    error dialogs it has shown, and the files on disk. *)
Record crawler : Type := Crawler {
  queue : list string;
  visited : gset string;
  running : bool;
  output_file : string;
  output_area : list log_entry;
  threads : list Z;
  errors_shown : list string;
  disk : gmap string string
}.

(** The three entries of the form. *)
Record form : Type := Form {
  url_entry : string;
  max_pages_entry : string;
  use_existing_var : bool
}.

(** The entries hold text on which [PyStr.strip] and [PyStr.int] are
    [str.strip] and [int]. *)
Definition plain_entries (f : form) : bool :=
  PyStr.ascii_edged (url_entry f) && PyStr.isascii (max_pages_entry f).

(** What the crawler does not control.  A file fault [Some 0] makes [open]
    raise [OSError]; [Some (S k)] lets [open] and the first [k] calls of
    [write] succeed and then raises.  [stop_clicks k] tells whether the
    operator presses Stop before the loop test of iteration [k]. *)
Record world : Type := World {
  requests_get : string -> fetch_result;
  open_w_fault : string -> option nat;
  open_a_fault : Z -> string -> option nat;
  stop_clicks : nat -> bool
}.

Definition set_frontier (q : list string) (v : gset string) (st : crawler) : crawler :=
  {| queue := q; visited := v; running := running st;
     output_file := output_file st; output_area := output_area st;
     threads := threads st; errors_shown := errors_shown st; disk := disk st |}.

Definition set_running (b : bool) (st : crawler) : crawler :=
  {| queue := queue st; visited := visited st; running := b;
     output_file := output_file st; output_area := output_area st;
     threads := threads st; errors_shown := errors_shown st; disk := disk st |}.

Definition set_output_file (f : string) (st : crawler) : crawler :=
  {| queue := queue st; visited := visited st; running := running st;
     output_file := f; output_area := output_area st;
     threads := threads st; errors_shown := errors_shown st; disk := disk st |}.

Definition set_output_area (l : list log_entry) (st : crawler) : crawler :=
  {| queue := queue st; visited := visited st; running := running st;
     output_file := output_file st; output_area := l;
     threads := threads st; errors_shown := errors_shown st; disk := disk st |}.

Definition set_disk (d : gmap string string) (st : crawler) : crawler :=
  {| queue := queue st; visited := visited st; running := running st;
     output_file := output_file st; output_area := output_area st;
     threads := threads st; errors_shown := errors_shown st; disk := d |}.

(** [threading.Thread(target=self.run_bfs, args=(max_pages,)).start()] *)
Definition start_thread (max_pages : Z) (st : crawler) : crawler :=
  {| queue := queue st; visited := visited st; running := running st;
     output_file := output_file st; output_area := output_area st;
     threads := (threads st ++ [max_pages])%list;
     errors_shown := errors_shown st; disk := disk st |}.

(** [messagebox.showerror("Error", msg)] *)
Definition showerror (msg : string) (st : crawler) : crawler :=
  {| queue := queue st; visited := visited st; running := running st;
     output_file := output_file st; output_area := output_area st;
     threads := threads st;
     errors_shown := (errors_shown st ++ [msg])%list; disk := disk st |}.

(** [self.output_area.insert(tk.END, ...)] *)
Definition insert_END (l : log_entry) (st : crawler) : crawler :=
  set_output_area (output_area st ++ [l])%list st.

(** ** Files *)

Definition file_content (d : gmap string string) (path : string) : string :=
  default EmptyString (d !! path).

(** Successive [f.write] calls. *)
Fixpoint writes (content : string) (chunks : list string) : string :=
  match chunks with
  | [] => content
  | c :: chunks' => writes (content ++ c) chunks'
  end.

(** [with open(path, mode) as f: f.write(c1); ...; f.write(cn)].  Mode [w]
    truncates ([truncate = true]); mode [a] keeps what the file holds.  Both
    create a missing file. *)
Definition open_and_write (fault : option nat) (truncate : bool) (path : string)
    (chunks : list string) (d : gmap string string)
  : result unit * gmap string string :=
  let old := if truncate then EmptyString else file_content d path in
  match fault with
  | None => (Return tt, <[path := writes old chunks]> d)
  | Some O => (Raise OSError, d)
  | Some (S k) => (Raise OSError, <[path := writes old (take k chunks)]> d)
  end.

Definition header : string := "=== Begin scraping ===" ++ LF.

(** The first chunk that [scrape_page] writes for a page. *)
Definition page_heading (page_id : Z) (url : string) : string :=
  LF ++ "=== Page #" ++ PyStr.of_Z page_id ++ ": " ++ url ++ " ===" ++ LF ++ LF.

(** The three chunks that [scrape_page] writes for one page. *)
Definition record_chunks (page_id : Z) (url text_content : string) : list string :=
  [page_heading page_id url; text_content; LF ++ LF].

Definition record_block (page_id : Z) (url text_content : string) : string :=
  writes EmptyString (record_chunks page_id url text_content).

(** ** [get_timestamped_filename], [start_scraping], [stop_scraping] *)

(** [now] is [datetime.datetime.now().strftime("%Y%m%d-%H%M%S")]. *)
Definition get_timestamped_filename (now : string) : string :=
  "scraped_data" ++ "_" ++ now ++ ".txt".

Definition start_scraping (w : world) (now : string) (f : form) (st : crawler)
  : result unit * crawler :=
  let st :=
    if use_existing_var f then st
    else set_output_file (get_timestamped_filename now) st in
  let st := set_frontier [] ∅ st in
  let url := PyStr.strip (url_entry f) in
  if PyStr.is_empty url then
    (Return tt, showerror "Please provide a starting URL." st)
  else
    match PyStr.int (max_pages_entry f) with
    | None => (Return tt, showerror "Max pages must be an integer." st)
    | Some max_pages =>
        let st := set_frontier (queue st ++ [url])%list ({[url]} ∪ visited st) st in
        let st := set_output_area [] st in
        let st := insert_END (InfoOutputFile (output_file st)) st in
        let st := insert_END (InfoStartingBFS url) st in
        match open_and_write (open_w_fault w (output_file st)) true
                (output_file st) [header] (disk st) with
        | (Raise e, d) => (Raise e, set_disk d st)
        | (Return _, d) =>
            (Return tt, start_thread max_pages (set_running true (set_disk d st)))
        end
    end.

Definition stop_scraping (st : crawler) : crawler :=
  insert_END InfoStopRequested (set_running false st).

(** The path that [start_scraping] writes to. *)
Definition chosen_file (now : string) (f : form) (st : crawler) : string :=
  if use_existing_var f then output_file st else get_timestamped_filename now.

(** The state in which a run begins: the frontier holds the seed only, the
    log its two opening lines, the chosen file the header only, and one more
    thread runs [run_bfs max_pages]. *)
Definition started (now : string) (f : form) (st : crawler) (max_pages : Z)
  : crawler :=
  {| queue := [PyStr.strip (url_entry f)];
     visited := {[PyStr.strip (url_entry f)]};
     running := true;
     output_file := chosen_file now f st;
     output_area := [InfoOutputFile (chosen_file now f st);
                     InfoStartingBFS (PyStr.strip (url_entry f))];
     threads := (threads st ++ [max_pages])%list;
     errors_shown := errors_shown st;
     disk := <[chosen_file now f st := header]> (disk st) |}.

(** ** The frontier *)

(** The body of [if absolute_url not in self.visited: ...] in [scrape_page]. *)
Definition offer (absolute_url : string) (st : crawler) : crawler :=
  if decide (absolute_url ∈ visited st) then st
  else set_frontier (queue st ++ [absolute_url])%list
                    ({[absolute_url]} ∪ visited st) st.

Definition offer_all (urls : list string) (st : crawler) : crawler :=
  fold_left (fun st u => offer u st) urls st.

(** ** Notions used to state the properties *)

(** The frontier is consistent: no URL is queued twice and every queued URL
    is in [visited]. *)
Definition frontier_ok (st : crawler) : Prop :=
  NoDup (queue st) ∧ ∀ u, u ∈ queue st → u ∈ visited st.

Definition is_scraped (l : log_entry) : bool :=
  match l with ScrapedLine _ _ => true | _ => false end.

Definition is_finished (l : log_entry) : bool :=
  match l with InfoFinished _ => true | _ => false end.

(** Number of [[SCRAPED]] lines, and of "BFS finished" lines, in a log. *)
Definition scraped_count (log : list log_entry) : nat :=
  length (List.filter is_scraped log).

Definition finished_count (log : list log_entry) : nat :=
  length (List.filter is_finished log).

(** The page number and URL of every [[SCRAPED]] line, in order. *)
Fixpoint scraped_pages (log : list log_entry) : list (Z * string) :=
  match log with
  | [] => []
  | ScrapedLine page_id url :: log' => (page_id, url) :: scraped_pages log'
  | _ :: log' => scraped_pages log'
  end.

(** The text that [scrape_page] extracts from the page at [url]. *)
Definition text_content (w : world) (url : string) : string :=
  match requests_get w url with
  | Response page => PyStr.strip (get_text page)
  | _ => EmptyString
  end.

(** The record blocks of the given pages, one after the other. *)
Fixpoint record_blocks (w : world) (pages : list (Z * string)) : string :=
  match pages with
  | [] => EmptyString
  | (page_id, url) :: pages' =>
      record_block page_id url (text_content w url) ++ record_blocks w pages'
  end.

(** The page numbers [first + 1, first + 2, ..., first + n]. *)
Fixpoint numbered_from (first : Z) (pages : list (Z * string)) : Prop :=
  match pages with
  | [] => True
  | (page_id, _) :: pages' => page_id = first + 1 ∧ numbered_from (first + 1) pages'
  end.

(** Everything but the frontier is the same in both states. *)
Definition same_but_frontier (st st' : crawler) : Prop :=
  running st' = running st ∧ output_file st' = output_file st
  ∧ output_area st' = output_area st ∧ threads st' = threads st
  ∧ errors_shown st' = errors_shown st ∧ disk st' = disk st.

(** [st'] has the URLs [new] appended to the queue of [st] and added to its
    visited set; none of them was visited before and none occurs twice. *)
Definition grows_by (new : list string) (st st' : crawler) : Prop :=
  queue st' = (queue st ++ new)%list
  ∧ visited st' = list_to_set new ∪ visited st
  ∧ NoDup new ∧ ∀ x, x ∈ new → x ∉ visited st.

(** ** A small web, for concrete runs

    Three URLs: the seed page links to a mail address, to a fragment of
    itself and to a page that answers 404; the fragment URL serves a page
    with an anchor without [href], an empty [href] and a link back to the
    seed. *)

Definition demo_urljoin : string -> string -> option string :=
  Urllib.urljoin (fun _ => true).

Definition demo_scheme : string -> option string :=
  Urllib.urlparse_scheme (fun _ => true).

Definition demo_get (url : string) : fetch_result :=
  if String.eqb url "https://x.test/" then
    Response (Soup "  Hello  "
                [Some "mailto:a@b.com"; Some "#section"; Some "https://x.test/y"])
  else if String.eqb url "https://x.test/y" then
    RequestException "404 Client Error"
  else
    Response (Soup "Again" [None; Some EmptyString; Some "https://x.test/"]).

Definition demo_world : world :=
  {| requests_get := demo_get;
     open_w_fault := fun _ => None;
     open_a_fault := fun _ _ => None;
     stop_clicks := fun _ => false |}.

(** The same web on a disk that fails while the second page is written. *)
Definition faulty_world : world :=
  {| requests_get := demo_get;
     open_w_fault := fun _ => None;
     open_a_fault := fun page_id _ => if page_id =? 2 then Some 2%nat else None;
     stop_clicks := fun _ => false |}.

(** A web that answers every request with the status 304 and a page
    without links. *)
Definition not_modified (url : string) : http_response :=
  {| status_code := 304; reason := "Not Modified"; response_url := url |}.

Definition cached_world : world :=
  {| requests_get :=
       fun url => try_get (Transferred (not_modified url) (Soup "Cached" []));
     open_w_fault := fun _ => None;
     open_a_fault := fun _ _ => None;
     stop_clicks := fun _ => false |}.

(** The small web with an operator who presses Stop before the second loop
    test. *)
Definition stopping_world : world :=
  {| requests_get := demo_get;
     open_w_fault := fun _ => None;
     open_a_fault := fun _ _ => None;
     stop_clicks := fun k => Nat.eqb k 1 |}.



(** The object as [__init__] leaves it. *)
Definition fresh_gui : crawler :=
  {| queue := []; visited := ∅; running := false;
     output_file := get_timestamped_filename "20240101-120000";
     output_area := []; threads := []; errors_shown := []; disk := ∅ |}.

Definition demo_form (max_pages : string) (append : bool) : form :=
  {| url_entry := "https://x.test/"; max_pages_entry := max_pages;
     use_existing_var := append |}.

(** The state when a first run, with budget 5 and a new file, has been
    started; the state after the first turn of its loop; and the state when
    it has ended. *)
Definition demo_started : crawler :=
  started "20240101-120500" (demo_form "5" false) fresh_gui 5.

Definition demo_midrun : crawler :=
  {| queue := ["https://x.test/#section"; "https://x.test/y"];
     visited := {["https://x.test/"; "https://x.test/#section";
                  "https://x.test/y"]};
     running := true;
     output_file := "scraped_data_20240101-120500.txt";
     output_area := [InfoOutputFile "scraped_data_20240101-120500.txt";
                     InfoStartingBFS "https://x.test/";
                     ScrapedLine 1 "https://x.test/"];
     threads := [5]; errors_shown := [];
     disk := {["scraped_data_20240101-120500.txt" :=
                 header ++ record_block 1 "https://x.test/" "Hello"]} |}.

Definition demo_finished : crawler :=
  {| queue := [];
     visited := {["https://x.test/"; "https://x.test/#section";
                  "https://x.test/y"]};
     running := false;
     output_file := "scraped_data_20240101-120500.txt";
     output_area := [InfoOutputFile "scraped_data_20240101-120500.txt";
                     InfoStartingBFS "https://x.test/";
                     ScrapedLine 1 "https://x.test/";
                     ScrapedLine 2 "https://x.test/#section";
                     ErrorLine "https://x.test/y" "404 Client Error";
                     InfoFinished 2];
     threads := [5]; errors_shown := [];
     disk := {["scraped_data_20240101-120500.txt" :=
                 header ++ record_block 1 "https://x.test/" "Hello"
                   ++ record_block 2 "https://x.test/#section" "Again"]} |}.

(** A running crawler whose next URL is the one that answers 404. *)
Definition demo_failing : crawler :=
  {| queue := ["https://x.test/y"]; visited := {["https://x.test/y"]};
     running := true; output_file := "corpus.txt"; output_area := [];
     threads := [5]; errors_shown := []; disk := ∅ |}.

(** The links of the seed page. *)
Definition demo_links : list (option string) :=
  [Some "mailto:a@b.com"; Some "#section"; Some "https://x.test/y"].

(** ** The object at creation and the untouched form *)

(** [default_url] and [max_pages_default] of [__init__]. *)
Definition default_url : string := "https://www.wikipedia.org".

Definition max_pages_default : Z := 50.

(** The fields of the engine as [__init__] sets them at time [now], on the
    disk [d]. *)
Definition init (now : string) (d : gmap string string) : crawler :=
  {| queue := []; visited := ∅; running := false;
     output_file := get_timestamped_filename now;
     output_area := []; threads := []; errors_shown := []; disk := d |}.

(** The entries as [_build_gui] fills them: the default URL, the text of
    the default budget, the check box off. *)
Definition default_form : form :=
  {| url_entry := default_url;
     max_pages_entry := PyStr.of_Z max_pages_default;
     use_existing_var := false |}.

(** ** More notions used to state properties *)

(** The URLs of [urls] that are not in [seen], each once, in order: what a
    sequence of [offer] calls appends to the queue. *)
Fixpoint new_urls (seen : gset string) (urls : list string) : list string :=
  match urls with
  | [] => []
  | u :: urls' =>
      if decide (u ∈ seen) then new_urls seen urls'
      else u :: new_urls ({[u]} ∪ seen) urls'
  end.

(** The URLs of the [[ERROR]] and [[SCRAPED]] lines of a log, in order. *)
Fixpoint fetched_urls (log : list log_entry) : list string :=
  match log with
  | [] => []
  | ErrorLine url _ :: log' => url :: fetched_urls log'
  | ScrapedLine _ url :: log' => url :: fetched_urls log'
  | _ :: log' => fetched_urls log'
  end.

(** The anchors of the page at [url]. *)
Definition links_of (w : world) (url : string) : list (option string) :=
  match requests_get w url with
  | Response page => find_all_a page
  | _ => []
  end.

(** Every field but the frontier, the log, the disk and [running] is the
    same in both states. *)
Definition same_settings (st st' : crawler) : Prop :=
  output_file st' = output_file st ∧ threads st' = threads st
  ∧ errors_shown st' = errors_shown st.

(** A well-formed scheme: a letter followed by letters, digits, [+], [-]
    or [.]. *)
Definition valid_scheme (s : string) : bool :=
  match s with
  | EmptyString => false
  | String c _ => PyStr.isalpha c && Urllib.all_chars Urllib.scheme_char s
  end.

(** ** A second small web

    [https://x.test/solo] links to itself and to a mail address;
    [https://x.test/bad] has, between two good links, a link with an
    unclosed bracket, which [urlsplit] rejects; every other URL refuses the
    connection.  Stop is pressed before the third loop test. *)

Definition side_get (url : string) : fetch_result :=
  if String.eqb url "https://x.test/solo" then
    Response (Soup " Solo " [Some "https://x.test/solo"; Some "mailto:a@b.com"])
  else if String.eqb url "https://x.test/bad" then
    Response (Soup "Bad" [Some "/a"; Some "http://["; Some "/b"])
  else RequestException "connection refused".

Definition side_world : world :=
  {| requests_get := side_get;
     open_w_fault := fun _ => None;
     open_a_fault := fun _ _ => None;
     stop_clicks := fun k => Nat.eqb k 2 |}.

Definition side_form (url max_pages : string) : form :=
  {| url_entry := url; max_pages_entry := max_pages;
     use_existing_var := false |}.

(** The small web on a disk where no file can be created. *)
Definition readonly_world : world :=
  {| requests_get := demo_get;
     open_w_fault := fun _ => Some 0%nat;
     open_a_fault := fun _ _ => None;
     stop_clicks := fun _ => false |}.

(** ** [scrape_page] and [run_bfs] *)

Section Engine.

#[local] Set Warnings "-clear-no-such-hyp".

(** [urllib.parse.urljoin] and the [scheme] of [urllib.parse.urlparse],
    [None] when they raise [ValueError]; [Urllib.urljoin] and
    [Urllib.urlparse_scheme] are the instances. *)
Variable urljoin : string -> string -> option string.
Variable urlparse_scheme : string -> option string.
Variable w : world.

(** The loop [for link in soup.find_all("a")] of [scrape_page]. *)
Fixpoint follow_links (url : string) (links : list (option string))
    (st : crawler) : result unit * crawler :=
  match links with
  | [] => (Return tt, st)
  | link :: links' =>
      match link with
      | None => follow_links url links' st
      | Some href =>
          if negb (PyStr.truthy href) then follow_links url links' st
          else
            match urljoin url href with
            | None => (Raise ValueError, st)
            | Some absolute_url =>
                match urlparse_scheme absolute_url with
                | None => (Raise ValueError, st)
                | Some scheme =>
                    if PyStr.startswith scheme "http"
                    then follow_links url links' (offer absolute_url st)
                    else follow_links url links' st
                end
            end
      end
  end.

Definition scrape_page (url : string) (page_id : Z) (st : crawler)
  : result bool * crawler :=
  match requests_get w url with
  | RequestException e => (Return false, insert_END (ErrorLine url e) st)
  | Uncaught e => (Raise e, st)
  | Unencodable =>
      match open_and_write (open_a_fault w page_id url) false (output_file st)
              [page_heading page_id url] (disk st) with
      | (Raise e, d) => (Raise e, set_disk d st)
      | (Return _, d) => (Raise UnicodeEncodeError, set_disk d st)
      end
  | Response page =>
      let text_content := PyStr.strip (get_text page) in
      match open_and_write (open_a_fault w page_id url) false (output_file st)
              (record_chunks page_id url text_content) (disk st) with
      | (Raise e, d) => (Raise e, set_disk d st)
      | (Return _, d) =>
          let st := insert_END (ScrapedLine page_id url) (set_disk d st) in
          match follow_links url (find_all_a page) st with
          | (Raise e, st) => (Raise e, st)
          | (Return _, st) => (Return true, st)
          end
      end
  end.

(** One turn of the [while] loop of [run_bfs]: the loop test, and when it
    holds the body.  [k] counts the turns. *)
Inductive turn : Type :=
| LoopExit (st : crawler)
| LoopNext (current_url : string) (page_count : Z) (st : crawler)
| LoopRaise (current_url : string) (e : exn) (st : crawler).

Definition bfs_turn (max_pages : Z) (k : nat) (page_count : Z) (st : crawler)
  : turn :=
  let st := if stop_clicks w k then stop_scraping st else st in
  if running st && (page_count <? max_pages) then
    match queue st with
    | [] => LoopExit st
    | current_url :: rest =>
        let st := set_frontier rest (visited st) st in
        match scrape_page current_url (page_count + 1) st with
        | (Raise e, st) => LoopRaise current_url e st
        | (Return success, st) =>
            LoopNext current_url
              (if success then page_count + 1 else page_count) st
        end
    end
  else LoopExit st.

(** The [while] loop, at most [fuel] turns: [None] when the fuel runs out,
    otherwise the [page_count] at the exit or the exception raised. *)
Fixpoint bfs_loop (max_pages : Z) (fuel k : nat) (page_count : Z)
    (st : crawler) : option (result Z * crawler) :=
  match fuel with
  | O => None
  | S fuel' =>
      match bfs_turn max_pages k page_count st with
      | LoopExit st => Some (Return page_count, st)
      | LoopRaise _ e st => Some (Raise e, st)
      | LoopNext _ page_count st => bfs_loop max_pages fuel' (S k) page_count st
      end
  end.

Definition run_bfs (max_pages : Z) (fuel : nat) (st : crawler)
  : option (result unit * crawler) :=
  match bfs_loop max_pages fuel 0 0 st with
  | None => None
  | Some (Raise e, st) => Some (Raise e, st)
  | Some (Return page_count, st) =>
      Some (Return tt, set_running false (insert_END (InfoFinished page_count) st))
  end.

(** The URLs that [queue.popleft()] returns during the first [fuel] turns,
    in order. *)
Fixpoint popped (max_pages : Z) (fuel k : nat) (page_count : Z)
    (st : crawler) : list string :=
  match fuel with
  | O => []
  | S fuel' =>
      match bfs_turn max_pages k page_count st with
      | LoopExit _ => []
      | LoopRaise current_url _ _ => [current_url]
      | LoopNext current_url page_count st =>
          current_url :: popped max_pages fuel' (S k) page_count st
      end
  end.

(** The links of a page that [scrape_page] offers to the frontier: every
    non-empty [href], resolved against the page's URL, whose scheme begins
    with [http]. *)
Fixpoint http_links (url : string) (links : list (option string))
    : list string :=
  match links with
  | [] => []
  | None :: links' => http_links url links'
  | Some href :: links' =>
      let others := http_links url links' in
      if PyStr.truthy href then
        match urljoin url href with
        | Some absolute_url =>
            match urlparse_scheme absolute_url with
            | Some scheme =>
                if PyStr.startswith scheme "http" then absolute_url :: others
                else others
            | None => others
            end
        | None => others
        end
      else others
  end.

(** A turn of the loop that popped [u] and got [r] from [scrape_page]:
    how the state after the turn relates to the state before it. *)
Definition turn_popped (page_count : Z) (u : string) (r : result bool)
    (st st' : crawler) : Prop :=
  ∃ rest new evs written,
    queue st = u :: rest
    ∧ grows_by new (set_frontier rest (visited st) st) st'
    ∧ running st' = running st ∧ output_file st' = output_file st
    ∧ output_area st' = (output_area st ++ evs)%list
    ∧ file_content (disk st') (output_file st)
      = file_content (disk st) (output_file st) ++ written
    ∧ (∀ q, output_file st ≠ q →
            file_content (disk st') q = file_content (disk st) q)
    ∧ ((∃ e, requests_get w u = RequestException e ∧ r = Return false
             ∧ new = [] ∧ evs = [ErrorLine u e] ∧ written = EmptyString
             ∧ disk st' = disk st)
       ∨ (∃ page, requests_get w u = Response page
             ∧ open_a_fault w (page_count + 1) u ≠ None ∧ r = Raise OSError
             ∧ new = [] ∧ evs = [])
       ∨ (∃ page, requests_get w u = Response page
             ∧ open_a_fault w (page_count + 1) u = None
             ∧ (r = Return true ∨ r = Raise ValueError)
             ∧ evs = [ScrapedLine (page_count + 1) u]
             ∧ written = record_block (page_count + 1) u (text_content w u))
       ∨ (∃ e, requests_get w u = Uncaught e ∧ r = Raise e
             ∧ new = [] ∧ evs = [] ∧ written = EmptyString
             ∧ disk st' = disk st)
       ∨ (requests_get w u = Unencodable
             ∧ (r = Raise OSError ∨ r = Raise UnicodeEncodeError)
             ∧ new = [] ∧ evs = [])).

(** The loop ends: some amount of fuel gives an outcome. *)
Definition loop_ends (max_pages : Z) (k : nat) (page_count : Z)
    (st : crawler) : Prop :=
  ∃ fuel r st', bfs_loop max_pages fuel k page_count st = Some (r, st').

(** The [http] links of the given scraped pages, page after page. *)
Fixpoint discovered (pages : list (Z * string)) : list string :=
  match pages with
  | [] => []
  | (_, url) :: pages' =>
      (http_links url (links_of w url) ++ discovered pages')%list
  end.

(** Whether [urljoin] and [urlparse] accept every non-empty [href] of the
    given anchors. *)
Fixpoint links_resolve (url : string) (links : list (option string)) : bool :=
  match links with
  | [] => true
  | None :: links' => links_resolve url links'
  | Some href :: links' =>
      if PyStr.truthy href then
        match urljoin url href with
        | Some absolute_url =>
            match urlparse_scheme absolute_url with
            | Some _ => links_resolve url links'
            | None => false
            end
        | None => false
        end
      else links_resolve url links'
  end.

(** [href] is rejected: [urljoin] raises on it, or [urlparse] raises on
    the URL that [urljoin] made of it. *)
Definition rejected (url href : string) : Prop :=
  PyStr.truthy href = true
  ∧ (urljoin url href = None
     ∨ ∃ absolute_url, urljoin url href = Some absolute_url
                       ∧ urlparse_scheme absolute_url = None).

(** ** String and state lemmas *)

Lemma append_cons (c : ascii) (s t : string) :
  String c s ++ t = String c (s ++ t).
Proof. reflexivity. Qed.

Lemma append_nil_r (s : string) : s ++ EmptyString = s.
Proof.
  induction s as [|c s IH]; [reflexivity | now rewrite append_cons, IH].
Qed.

Lemma append_assoc (a b c : string) : (a ++ b) ++ c = a ++ (b ++ c).
Proof.
  induction a as [|x a IH]; [reflexivity | now rewrite !append_cons, IH].
Qed.

Lemma writes_append (old : string) (chunks : list string) :
  writes old chunks = old ++ writes EmptyString chunks.
Proof.
  revert old. induction chunks as [|c chunks IH]; intros old; simpl.
  - now rewrite append_nil_r.
  - change (EmptyString ++ c) with c.
    rewrite (IH (old ++ c)), (IH c). apply append_assoc.
Qed.

Lemma file_content_insert (d : gmap string string) (path : string) (s : string) :
  file_content (<[path := s]> d) path = s.
Proof. unfold file_content. now rewrite lookup_insert_eq. Qed.

Lemma file_content_insert_ne (d : gmap string string) (p q : string) (s : string) :
  p ≠ q → file_content (<[p := s]> d) q = file_content d q.
Proof. intros Hne. unfold file_content. now rewrite lookup_insert_ne. Qed.

(** Opening a file, in either mode, and writing to it leaves every other
    file as it is; in mode [a] the old content stays in front. *)
Lemma open_and_write_other fault truncate path chunks d r d' q :
  open_and_write fault truncate path chunks d = (r, d') →
  path ≠ q → file_content d' q = file_content d q.
Proof.
  unfold open_and_write. intros H Hne.
  destruct fault as [[|k]|]; inversion H; subst; clear H;
    try reflexivity; now apply file_content_insert_ne.
Qed.

Lemma open_and_write_append fault path chunks d r d' :
  open_and_write fault false path chunks d = (r, d') →
  ∃ written, file_content d' path = file_content d path ++ written
    ∧ (fault = None → r = Return tt ∧ written = writes EmptyString chunks
         ∧ d' = <[path := file_content d path ++ written]> d)
    ∧ (fault ≠ None → r = Raise OSError).
Proof.
  unfold open_and_write. intros H.
  destruct fault as [[|k]|]; inversion H; subst; clear H.
  - exists EmptyString. rewrite append_nil_r. repeat split; congruence.
  - exists (writes EmptyString (take k chunks)).
    rewrite file_content_insert, writes_append. repeat split; congruence.
  - exists (writes EmptyString chunks).
    rewrite file_content_insert, writes_append.
    split; [reflexivity|]. split; [|congruence].
    intros _. split; [reflexivity|]. split; [reflexivity|].
    now rewrite <- writes_append.
Qed.

(** ** Facts about the engine *)

Lemma offer_visited (u : string) (st : crawler) :
  u ∈ visited st → offer u st = st.
Proof. intros Hin. unfold offer. now rewrite decide_True. Qed.

Lemma offer_fresh (u : string) (st : crawler) :
  u ∉ visited st →
  offer u st = set_frontier (queue st ++ [u])%list ({[u]} ∪ visited st) st.
Proof. intros Hnin. unfold offer. now rewrite decide_False. Qed.

Lemma offer_grows (u : string) (st : crawler) :
  ∃ new, grows_by new st (offer u st) ∧ same_but_frontier st (offer u st).
Proof.
  destruct (decide (u ∈ visited st)) as [Hin|Hnin].
  - rewrite (offer_visited _ _ Hin). exists [].
    split; [|now repeat split].
    repeat split; [now rewrite app_nil_r | set_solver | constructor | set_solver].
  - rewrite (offer_fresh _ _ Hnin). exists [u].
    split; [|now repeat split].
    repeat split; simpl; [set_solver | apply NoDup_singleton | set_solver].
Qed.

Lemma grows_by_trans new1 new2 st1 st2 st3 :
  grows_by new1 st1 st2 → grows_by new2 st2 st3 →
  grows_by (new1 ++ new2)%list st1 st3.
Proof.
  intros (Hq1 & Hv1 & Hnd1 & Hf1) (Hq2 & Hv2 & Hnd2 & Hf2).
  repeat split.
  - now rewrite Hq2, Hq1, app_assoc.
  - rewrite Hv2, Hv1. set_solver.
  - apply NoDup_app. split; [assumption|]. split; [|assumption].
    intros x Hx1 Hx2. apply (Hf2 x Hx2). rewrite Hv1. set_solver.
  - intros x Hx. apply elem_of_app in Hx as [Hx|Hx]; [now apply Hf1|].
    intros Hv. apply (Hf2 x Hx). rewrite Hv1. set_solver.
Qed.

Lemma same_but_frontier_trans st1 st2 st3 :
  same_but_frontier st1 st2 → same_but_frontier st2 st3 →
  same_but_frontier st1 st3.
Proof. unfold same_but_frontier. intuition congruence. Qed.

Lemma follow_links_grows url links : ∀ st r st',
  follow_links url links st = (r, st') →
  ∃ new, grows_by new st st' ∧ same_but_frontier st st'.
Proof.
  induction links as [|href links IH]; intros st r st' H; simpl in H.
  - inversion H; subst. exists [].
    split; [|now repeat split].
    repeat split; [now rewrite app_nil_r | set_solver | constructor | set_solver].
  - destruct href as [href|]; [|now apply (IH _ _ _ H)].
    destruct (PyStr.truthy href); simpl in H; [|now apply (IH _ _ _ H)].
    destruct (urljoin url href) as [absolute_url|].
    2:{ inversion H; subst. exists [].
        split; [|now repeat split].
        repeat split; [now rewrite app_nil_r | set_solver | constructor | set_solver]. }
    destruct (urlparse_scheme absolute_url) as [scheme|].
    2:{ inversion H; subst. exists [].
        split; [|now repeat split].
        repeat split; [now rewrite app_nil_r | set_solver | constructor | set_solver]. }
    destruct (PyStr.startswith scheme "http"); [|now apply (IH _ _ _ H)].
    destruct (offer_grows absolute_url st) as (new1 & Hg1 & Hs1).
    destruct (IH _ _ _ H) as (new2 & Hg2 & Hs2).
    exists (new1 ++ new2)%list. split.
    + eapply grows_by_trans; eassumption.
    + eapply same_but_frontier_trans; eassumption.
Qed.

(** The links that reach the frontier are the [http_links] of the page. *)
Lemma follow_links_offers url links : ∀ st st',
  follow_links url links st = (Return tt, st') →
  st' = offer_all (http_links url links) st.
Proof.
  induction links as [|href links IH]; intros st st' H; simpl in H |- *.
  - now inversion H.
  - destruct href as [href|]; [|now apply IH].
    destruct (PyStr.truthy href); simpl in H; [|now apply IH].
    destruct (urljoin url href) as [absolute_url|]; [|discriminate].
    destruct (urlparse_scheme absolute_url) as [scheme|]; [|discriminate].
    destruct (PyStr.startswith scheme "http"); [|now apply IH].
    simpl. now apply IH.
Qed.

Lemma scrape_page_failed url page_id st e :
  requests_get w url = RequestException e →
  scrape_page url page_id st = (Return false, insert_END (ErrorLine url e) st).
Proof. intros Hget. unfold scrape_page. now rewrite Hget. Qed.

Lemma grows_by_nil st st' :
  queue st' = queue st → visited st' = visited st → grows_by [] st st'.
Proof.
  intros Hq Hv.
  repeat split; [now rewrite app_nil_r | set_solver | constructor | set_solver].
Qed.

(** What one call of [scrape_page] does to the state, by cases on the
    fetch and on the file fault. *)
Lemma scrape_page_spec url page_id st r st' :
  scrape_page url page_id st = (r, st') →
  ∃ new evs written,
    grows_by new st st'
    ∧ running st' = running st ∧ output_file st' = output_file st
    ∧ output_area st' = (output_area st ++ evs)%list
    ∧ file_content (disk st') (output_file st)
      = file_content (disk st) (output_file st) ++ written
    ∧ (∀ q, output_file st ≠ q →
            file_content (disk st') q = file_content (disk st) q)
    ∧ ((∃ e, requests_get w url = RequestException e ∧ r = Return false
             ∧ new = [] ∧ evs = [ErrorLine url e] ∧ written = EmptyString
             ∧ disk st' = disk st)
       ∨ (∃ page, requests_get w url = Response page
             ∧ open_a_fault w page_id url ≠ None ∧ r = Raise OSError
             ∧ new = [] ∧ evs = [])
       ∨ (∃ page, requests_get w url = Response page
             ∧ open_a_fault w page_id url = None
             ∧ (r = Return true ∨ r = Raise ValueError)
             ∧ evs = [ScrapedLine page_id url]
             ∧ written = record_block page_id url (text_content w url))
       ∨ (∃ e, requests_get w url = Uncaught e ∧ r = Raise e
             ∧ new = [] ∧ evs = [] ∧ written = EmptyString
             ∧ disk st' = disk st)
       ∨ (requests_get w url = Unencodable
             ∧ (r = Raise OSError ∨ r = Raise UnicodeEncodeError)
             ∧ new = [] ∧ evs = [])).
Proof.
  unfold scrape_page, text_content.
  destruct (requests_get w url) as [e|page|e|] eqn:Hget; intros H.
  1:{ inversion H; subst; clear H. exists [], [ErrorLine url e], EmptyString.
      split; [now apply grows_by_nil|]. simpl. rewrite append_nil_r.
      repeat split. left. exists e. now repeat split. }
  2:{ inversion H; subst; clear H. exists [], [], EmptyString.
      split; [now apply grows_by_nil|]. rewrite app_nil_r, append_nil_r.
      repeat split. do 3 right. left. exists e. now repeat split. }
  2:{ destruct (open_and_write _ _ _ _ _) as [rw d] eqn:Hw.
      destruct (open_and_write_append _ _ _ _ _ _ Hw)
        as (written & Hfile & Hok & Hfail).
      pose proof (fun q => open_and_write_other _ _ _ _ _ _ _ q Hw) as Hother.
      assert (Hr : st' = set_disk d st
                   ∧ (r = Raise OSError ∨ r = Raise UnicodeEncodeError)).
      { destruct (open_a_fault w page_id url) as [n|] eqn:Hfault.
        - rewrite (Hfail ltac:(discriminate)) in H. inversion H; subst.
          split; [reflexivity | now left].
        - destruct (Hok eq_refl) as (-> & _ & _). inversion H; subst.
          split; [reflexivity | now right]. }
      destruct Hr as [-> Hr].
      exists [], [], written. split; [now apply grows_by_nil|]. simpl.
      rewrite app_nil_r.
      repeat split; [assumption | intros q Hq; now apply Hother |].
      do 4 right. now repeat split. }
  destruct (open_and_write _ _ _ _ _) as [rw d] eqn:Hw.
    destruct (open_and_write_append _ _ _ _ _ _ Hw)
      as (written & Hfile & Hok & Hfail).
    pose proof (fun q => open_and_write_other _ _ _ _ _ _ _ q Hw) as Hother.
    destruct (open_a_fault w page_id url) as [n|] eqn:Hfault.
    + rewrite (Hfail ltac:(discriminate)) in H. inversion H; subst; clear H.
      exists [], [], written. split; [now apply grows_by_nil|]. simpl.
      rewrite app_nil_r. repeat split; [assumption | intros q Hq; now apply Hother |].
      right; left. exists page. repeat split. discriminate.
    + destruct (Hok eq_refl) as (-> & -> & ->).
      destruct (follow_links _ _ _) as [rl stl] eqn:Hl.
      destruct (follow_links_grows _ _ _ _ _ Hl) as (new & Hg & Hs).
      destruct Hs as (Hrun & Hof & Hoa & _ & _ & Hdisk).
      assert (Hst' : st' = stl ∧ (r = Return true ∨ r = Raise ValueError)).
      { destruct rl as [[]|e]; inversion H; subst; [now split; [|left]|].
        split; [reflexivity|]. right.
        clear -Hl. revert Hl. generalize (insert_END (ScrapedLine page_id url)
          (set_disk (<[output_file st := file_content (disk st) (output_file st)
             ++ writes EmptyString
                  (record_chunks page_id url (PyStr.strip (get_text page)))]>
             (disk st)) st)).
        induction (find_all_a page) as [|href links IH]; intros s Hl; simpl in Hl.
        - discriminate.
        - destruct href as [href|]; [|now apply (IH _ Hl)].
          destruct (PyStr.truthy href); simpl in Hl; [|now apply (IH _ Hl)].
          destruct (urljoin url href) as [absolute_url|]; [|now inversion Hl].
          destruct (urlparse_scheme absolute_url) as [scheme|];
            [|now inversion Hl].
          destruct (PyStr.startswith scheme "http"); now apply (IH _ Hl). }
      destruct Hst' as [-> Hr].
      exists new, [ScrapedLine page_id url],
        (record_block page_id url (PyStr.strip (get_text page))).
      split; [exact Hg|]. rewrite Hrun, Hof, Hoa, Hdisk. simpl.
      rewrite file_content_insert.
      repeat split; [intros q Hq; now apply file_content_insert_ne |].
      right; right; left. exists page. now repeat split.
Qed.

Lemma bfs_turn_spec max_pages k page_count st :
  match bfs_turn max_pages k page_count st with
  | LoopExit st' =>
      (st' = st ∨ st' = stop_scraping st)
      ∧ (running st' = false ∨ max_pages ≤ page_count ∨ queue st' = [])
  | LoopNext u page_count' st' =>
      stop_clicks w k = false ∧ running st = true ∧ page_count < max_pages
      ∧ ∃ success, turn_popped page_count u (Return success) st st'
          ∧ page_count' = (if success then page_count + 1 else page_count)
  | LoopRaise u e st' =>
      stop_clicks w k = false ∧ running st = true ∧ page_count < max_pages
      ∧ turn_popped page_count u (Raise e) st st'
  end.
Proof.
  unfold bfs_turn.
  destruct (stop_clicks w k) eqn:Hstop.
  { simpl. split; [now right | now left]. }
  destruct (running st) eqn:Hrun; simpl.
  2:{ split; [now left | now left]. }
  destruct (Z.ltb_spec page_count max_pages) as [Hlt|Hge].
  2:{ split; [now left | right; left; lia]. }
  destruct (queue st) as [|u rest] eqn:Hq.
  { split; [now left | now right; right]. }
  destruct (scrape_page u (page_count + 1) _) as [r st'] eqn:Hsp.
  destruct (scrape_page_spec _ _ _ _ _ Hsp)
    as (new & evs & written & Hg & Hr & Hof & Hoa & Hfc & Hoth & Hcases).
  simpl in Hr, Hof, Hoa, Hfc, Hoth.
  assert (Hpop : turn_popped page_count u r st st').
  { exists rest, new, evs, written.
    split; [exact Hq|]. split; [exact Hg|].
    split; [exact Hr|]. split; [exact Hof|]. split; [exact Hoa|].
    split; [exact Hfc|]. split; [exact Hoth|].
    simpl in Hcases. exact Hcases. }
  destruct r as [success|e].
  - repeat split; try assumption. exists success. now split.
  - now repeat split.
Qed.

Lemma scraped_pages_app (a b : list log_entry) :
  scraped_pages (a ++ b) = (scraped_pages a ++ scraped_pages b)%list.
Proof.
  induction a as [|[] a IH]; simpl; try assumption; [reflexivity|].
  now rewrite IH.
Qed.

Lemma scraped_count_pages (log : list log_entry) :
  scraped_count log = length (scraped_pages log).
Proof.
  unfold scraped_count. induction log as [|[] log IH]; simpl; try assumption;
    [reflexivity|]. now rewrite IH.
Qed.

Lemma finished_count_app (a b : list log_entry) :
  finished_count (a ++ b) = (finished_count a + finished_count b)%nat.
Proof. unfold finished_count. now rewrite List.filter_app, length_app. Qed.

Lemma record_blocks_app (a b : list (Z * string)) :
  record_blocks w (a ++ b) = record_blocks w a ++ record_blocks w b.
Proof.
  induction a as [|[n u] a IH]; simpl; [reflexivity|].
  now rewrite IH, append_assoc.
Qed.

Lemma numbered_from_app (a b : list (Z * string)) : ∀ first,
  numbered_from first a → numbered_from (first + Z.of_nat (length a)) b →
  numbered_from first (a ++ b).
Proof.
  induction a as [|[n u] a IH]; intros first Ha Hb; simpl in *.
  - now rewrite Z.add_0_r in Hb.
  - destruct Ha as [-> Ha]. split; [reflexivity|]. apply IH; [assumption|].
    now replace (first + 1 + Z.of_nat (length a))
      with (first + Z.pos (Pos.of_succ_nat (length a))) by lia.
Qed.

(** The log, the counter and the corpus file over a whole loop: the loop
    appends [evs] to the log, none of them a "finished" line; the pages it
    scraped are numbered from [page_count + 1]; the file gains their record
    blocks, followed by a partial block only when a write failed. *)
Lemma bfs_loop_log max_pages : ∀ fuel k page_count st r st',
  bfs_loop max_pages fuel k page_count st = Some (r, st') →
  ∃ evs written,
    output_area st' = (output_area st ++ evs)%list
    ∧ finished_count evs = 0%nat
    ∧ numbered_from page_count (scraped_pages evs)
    ∧ output_file st' = output_file st
    ∧ file_content (disk st') (output_file st)
      = file_content (disk st) (output_file st)
          ++ record_blocks w (scraped_pages evs) ++ written
    ∧ (∀ q, output_file st ≠ q →
            file_content (disk st') q = file_content (disk st) q)
    ∧ (r ≠ Raise OSError → r ≠ Raise UnicodeEncodeError →
       written = EmptyString)
    ∧ (∀ n, r = Return n →
            n = page_count + Z.of_nat (scraped_count evs)
            ∧ n ≤ Z.max page_count max_pages).
Proof.
  induction fuel as [|fuel IH]; intros k page_count st r st' H; simpl in H;
    [discriminate|].
  pose proof (bfs_turn_spec max_pages k page_count st) as Ht.
  destruct (bfs_turn max_pages k page_count st) as [st1|u pc1 st1|u e st1].
  - inversion H; subst; clear H. destruct Ht as [[->| ->] _].
    + exists [], EmptyString. simpl. rewrite app_nil_r, !append_nil_r.
      split_and!; try done. intros n [= <-]. unfold scraped_count. simpl. lia.
    + exists [InfoStopRequested], EmptyString. simpl. rewrite !append_nil_r.
      split_and!; try done. intros n [= <-]. unfold scraped_count. simpl. lia.
  - destruct Ht as (_ & _ & Hlt & success & Hpop & ->).
    destruct Hpop as (rest & new & evs1 & written1 & Hq & Hg & Hr & Hof
                      & Hoa & Hfc & Hoth & Hcases).
    destruct (IH _ _ _ _ _ H)
      as (evs2 & written2 & Hoa2 & Hfin2 & Hnum2 & Hof2 & Hfc2 & Hoth2
          & Hw2 & Hn2).
    exists (evs1 ++ evs2)%list, written2.
    rewrite Hoa2, Hoa, Hof2, Hof, app_assoc.
    rewrite Hof in Hfc2, Hoth2. rewrite Hfc2, Hfc.
    rewrite scraped_pages_app, record_blocks_app, finished_count_app, Hfin2.
    rewrite scraped_count_pages, scraped_pages_app, length_app.
    rewrite scraped_count_pages in Hn2.
    assert (Hone : finished_count evs1 = 0%nat
              ∧ written1 = record_blocks w (scraped_pages evs1)
              ∧ numbered_from page_count (scraped_pages evs1)
              ∧ (if success then page_count + 1 else page_count)
                = page_count + Z.of_nat (length (scraped_pages evs1))).
    { destruct Hcases as [(e & _ & Hs & _ & -> & -> & _)
                         |[(page & _ & _ & Hs & _)
                          |[(page & _ & _ & Hs & -> & ->)
                           |[(e & _ & Hs & _)|(_ & Hs & _)]]]].
      - inversion Hs; subst. simpl. repeat split. lia.
      - discriminate.
      - destruct Hs as [Hs|Hs]; [|discriminate]. inversion Hs; subst. simpl.
        rewrite append_nil_r. repeat split.
      - discriminate.
      - destruct Hs; discriminate. }
    destruct Hone as (Hfin1 & -> & Hnum1 & Hpc).
    rewrite Hfin1, !append_assoc.
    split_and!; try done.
    + apply numbered_from_app; [assumption|]. now rewrite <- Hpc.
    + intros q Hq'. now rewrite Hoth2, Hoth.
    + intros n Hn. destruct (Hn2 n Hn) as [Hn' Hle]. destruct success; lia.
  - inversion H; subst; clear H.
    destruct Ht as (_ & _ & Hlt & Hpop).
    destruct Hpop as (rest & new & evs1 & written1 & Hq & Hg & Hr & Hof
                      & Hoa & Hfc & Hoth & Hcases).
    destruct Hcases as [(e' & _ & Hs & _)
                       |[(page & _ & _ & Hs & _ & ->)
                        |[(page & _ & _ & Hs & -> & ->)
                         |[(e' & _ & Hs & _ & -> & -> & _)
                          |(_ & Hs & _ & ->)]]]].
    + discriminate.
    + exists [], written1. simpl. rewrite Hfc.
      split_and!; try done. intros Hne _. exfalso. apply Hne. now inversion Hs.
    + exists [ScrapedLine (page_count + 1) u], EmptyString. simpl.
      rewrite Hfc, !append_nil_r.
      split_and!; try done.
    + exists [], EmptyString. simpl. rewrite Hfc, !append_nil_r.
      split_and!; try done.
    + exists [], written1. simpl. rewrite Hfc.
      split_and!; try done. intros Hne1 Hne2. exfalso.
      destruct Hs as [Hs|Hs]; [apply Hne1 | apply Hne2]; now inversion Hs.
Qed.

(** A turn that pops [u] keeps the frontier consistent, leaves [u] visited
    and out of the queue, and enqueues only URLs that were not visited. *)
Lemma turn_popped_frontier page_count u r st st' :
  turn_popped page_count u r st st' → frontier_ok st →
  frontier_ok st'
  ∧ u ∈ visited st' ∧ (u ∉ queue st')
  ∧ (∀ x, x ∈ visited st → x ∈ visited st')
  ∧ (∀ x, x ∈ queue st' → x ∈ queue st ∨ x ∉ visited st)
  ∧ (∀ x, x ∈ visited st → x ∉ queue st → x ∉ queue st').
Proof.
  intros (rest & new & evs & written & Hq & Hg & _) [Hnd Hvis].
  destruct Hg as (Hq' & Hv' & Hndnew & Hfresh). simpl in Hq', Hv', Hfresh.
  rewrite Hq in Hnd, Hvis. apply NoDup_cons in Hnd as [Hu Hrest].
  assert (Huv : u ∈ visited st) by (apply Hvis; left).
  split_and!.
  - split.
    + rewrite Hq'. apply NoDup_app. split_and!; try assumption.
      intros x Hx Hx'. apply (Hfresh x Hx'), Hvis. now right.
    + intros x Hx. rewrite Hq' in Hx. rewrite Hv'.
      apply elem_of_app in Hx as [Hx|Hx].
      * apply elem_of_union_r, Hvis. now right.
      * apply elem_of_union_l. now apply elem_of_list_to_set.
  - rewrite Hv'. now apply elem_of_union_r.
  - rewrite Hq'. intros Hx. apply elem_of_app in Hx as [Hx|Hx];
      [contradiction | now apply (Hfresh u Hx)].
  - intros x Hx. rewrite Hv'. now apply elem_of_union_r.
  - intros x Hx. rewrite Hq' in Hx. rewrite Hq.
    apply elem_of_app in Hx as [Hx|Hx]; [left; now right | right; now apply Hfresh].
  - intros x Hxv Hxq Hx. rewrite Hq' in Hx. rewrite Hq in Hxq.
    apply elem_of_app in Hx as [Hx|Hx];
      [apply Hxq; now right | now apply (Hfresh x Hx)].
Qed.

(** No URL is popped twice, and every popped URL was in the queue or not
    yet visited when the loop was entered. *)
Lemma popped_NoDup max_pages : ∀ fuel k page_count st,
  frontier_ok st →
  NoDup (popped max_pages fuel k page_count st)
  ∧ ∀ u, u ∈ popped max_pages fuel k page_count st →
         u ∈ queue st ∨ u ∉ visited st.
Proof.
  induction fuel as [|fuel IH]; intros k page_count st Hok; simpl.
  { split; [constructor | intros u Hu; inversion Hu]. }
  pose proof (bfs_turn_spec max_pages k page_count st) as Ht.
  destruct (bfs_turn max_pages k page_count st) as [st1|u pc1 st1|u e st1].
  - split; [constructor | intros u Hu; inversion Hu].
  - destruct Ht as (_ & _ & _ & success & Hpop & _).
    destruct (turn_popped_frontier _ _ _ _ _ Hpop Hok)
      as (Hok1 & Huv & Huq & Hmono & Hnew & _).
    destruct (IH (S k) pc1 st1 Hok1) as [Hnd Hin].
    assert (Hhead : u ∈ queue st).
    { destruct Hpop as (rest & new0 & evs0 & written0 & Hq & _). rewrite Hq. left. }
    split.
    + apply NoDup_cons. split; [|assumption].
      intros Hu. destruct (Hin u Hu) as [Hq1|Hv1]; contradiction.
    + intros x Hx. apply elem_of_cons in Hx as [->|Hx]; [now left|].
      destruct (Hin x Hx) as [Hq1|Hv1]; [now apply Hnew|].
      right. intros Hv. apply Hv1. now apply Hmono.
  - destruct Ht as (_ & _ & _ & Hpop).
    destruct Hpop as (rest & new0 & evs0 & written0 & Hq & _).
    split; [apply NoDup_singleton|].
    intros x Hx. apply list_elem_of_singleton in Hx as ->. left. rewrite Hq. left.
Qed.

(** Over a whole loop the frontier stays consistent, and every URL that
    was popped, or was visited and out of the queue before, is visited and
    out of the queue at the end. *)
Lemma bfs_loop_frontier max_pages : ∀ fuel k page_count st r st',
  bfs_loop max_pages fuel k page_count st = Some (r, st') →
  frontier_ok st →
  frontier_ok st'
  ∧ (∀ x, x ∈ visited st → x ∉ queue st → x ∈ visited st' ∧ x ∉ queue st')
  ∧ (∀ u, u ∈ popped max_pages fuel k page_count st →
          u ∈ visited st' ∧ u ∉ queue st').
Proof.
  induction fuel as [|fuel IH]; intros k page_count st r st' H Hok;
    simpl in H |- *; [discriminate|].
  pose proof (bfs_turn_spec max_pages k page_count st) as Ht.
  destruct (bfs_turn max_pages k page_count st) as [st1|u pc1 st1|u e st1].
  - inversion H; subst; clear H.
    destruct Ht as [[->| ->] _]; (split; [exact Hok|]);
      (split; [now intros x Hv Hq | intros u Hu; inversion Hu]).
  - destruct Ht as (_ & _ & _ & success & Hpop & _).
    destruct (turn_popped_frontier _ _ _ _ _ Hpop Hok)
      as (Hok1 & Huv & Huq & Hmono & _ & Hout).
    destruct (IH _ _ _ _ _ H Hok1) as (Hok' & Hkeep & Hpopped).
    split; [exact Hok'|]. split.
    + intros x Hv Hq. apply Hkeep; [now apply Hmono | now apply Hout].
    + intros x Hx. apply elem_of_cons in Hx as [->|Hx];
        [now apply Hkeep | now apply Hpopped].
  - inversion H; subst; clear H. destruct Ht as (_ & _ & _ & Hpop).
    destruct (turn_popped_frontier _ _ _ _ _ Hpop Hok)
      as (Hok1 & Huv & Huq & Hmono & _ & Hout).
    split; [exact Hok1|]. split.
    + intros x Hv Hq. split; [now apply Hmono | now apply Hout].
    + intros x Hx. now apply list_elem_of_singleton in Hx as ->.
Qed.

(** *** Termination of the loop *)

Lemma loop_ends_step max_pages k page_count st u pc1 st1 :
  bfs_turn max_pages k page_count st = LoopNext u pc1 st1 →
  loop_ends max_pages (S k) pc1 st1 → loop_ends max_pages k page_count st.
Proof.
  intros Ht (fuel & r & st' & H). exists (S fuel), r, st'. simpl. now rewrite Ht.
Qed.

(** A turn either leaves the loop or is followed by a state with a smaller
    remaining budget, or with the same budget and a shorter queue. *)
Lemma bfs_turn_measure max_pages k page_count st :
  match bfs_turn max_pages k page_count st with
  | LoopNext _ pc1 st1 =>
      page_count < max_pages
      ∧ (pc1 = page_count + 1
         ∨ (pc1 = page_count ∧ S (length (queue st1)) = length (queue st)))
  | _ => True
  end.
Proof.
  pose proof (bfs_turn_spec max_pages k page_count st) as Ht.
  destruct (bfs_turn max_pages k page_count st) as [st1|u pc1 st1|u e st1];
    [exact I | | exact I].
  destruct Ht as (_ & _ & Hlt & success & Hpop & ->).
  split; [exact Hlt|]. destruct success; [now left|right].
  split; [reflexivity|].
  destruct Hpop as (rest & new & evs & written & Hq & Hg & _ & _ & _ & _ & _
                    & Hcases).
  destruct Hg as (Hq1 & _). simpl in Hq1.
  destruct Hcases as [(e & _ & _ & -> & _)
                     |[(page & _ & _ & Hs & _)
                      |[(page & _ & _ & Hs & _)
                       |[(e & _ & Hs & _)|(_ & Hs & _)]]]].
  - now rewrite Hq1, Hq, app_nil_r.
  - discriminate.
  - destruct Hs as [Hs|Hs]; discriminate.
  - discriminate.
  - destruct Hs as [Hs|Hs]; discriminate.
Qed.

Lemma bfs_loop_ends_queue max_pages n :
  (∀ st k page_count,
      (Z.to_nat (max_pages - page_count) ≤ n)%nat →
      loop_ends max_pages k page_count st) →
  ∀ m st k page_count,
    (length (queue st) ≤ m)%nat →
    (Z.to_nat (max_pages - page_count) ≤ S n)%nat →
    loop_ends max_pages k page_count st.
Proof.
  intros Hbudget. induction m as [|m IHm]; intros st k page_count Hlen Hn.
  - pose proof (bfs_turn_measure max_pages k page_count st) as Hm.
    destruct (bfs_turn max_pages k page_count st) as [st1|u pc1 st1|u e st1]
      eqn:Ht.
    + exists 1%nat, (Return page_count), st1. simpl. now rewrite Ht.
    + destruct Hm as [Hlt [->|[-> Hq]]].
      * eapply loop_ends_step; [exact Ht|]. apply Hbudget. lia.
      * lia.
    + exists 1%nat, (Raise e), st1. simpl. now rewrite Ht.
  - pose proof (bfs_turn_measure max_pages k page_count st) as Hm.
    destruct (bfs_turn max_pages k page_count st) as [st1|u pc1 st1|u e st1]
      eqn:Ht.
    + exists 1%nat, (Return page_count), st1. simpl. now rewrite Ht.
    + destruct Hm as [Hlt [->|[-> Hq]]].
      * eapply loop_ends_step; [exact Ht|]. apply Hbudget. lia.
      * eapply loop_ends_step; [exact Ht|]. apply IHm; lia.
    + exists 1%nat, (Raise e), st1. simpl. now rewrite Ht.
Qed.

(** The loop of [run_bfs] always ends: some amount of fuel is enough. *)
Lemma bfs_loop_ends max_pages : ∀ n st k page_count,
  (Z.to_nat (max_pages - page_count) ≤ n)%nat →
  loop_ends max_pages k page_count st.
Proof.
  induction n as [|n IHn]; intros st k page_count Hn.
  - pose proof (bfs_turn_measure max_pages k page_count st) as Hm.
    destruct (bfs_turn max_pages k page_count st) as [st1|u pc1 st1|u e st1]
      eqn:Ht.
    + exists 1%nat, (Return page_count), st1. simpl. now rewrite Ht.
    + destruct Hm as [Hlt _]. lia.
    + exists 1%nat, (Raise e), st1. simpl. now rewrite Ht.
  - apply (bfs_loop_ends_queue max_pages n IHn (length (queue st))); lia.
Qed.

(** More fuel does not change the outcome of a loop that has ended. *)
Lemma bfs_loop_more_fuel max_pages : ∀ fuel fuel' k page_count st out,
  bfs_loop max_pages fuel k page_count st = Some out → (fuel ≤ fuel')%nat →
  bfs_loop max_pages fuel' k page_count st = Some out.
Proof.
  induction fuel as [|fuel IH]; intros fuel' k page_count st out H Hle;
    [discriminate|].
  destruct fuel' as [|fuel']; [lia|]. simpl in H |- *.
  destruct (bfs_turn max_pages k page_count st); try assumption.
  apply IH; [assumption | lia].
Qed.

(** [run_bfs] always ends, and with one outcome: from some amount of fuel
    on, the result is the same. *)
Lemma run_bfs_ends max_pages st :
  ∃ fuel r st', ∀ fuel', (fuel ≤ fuel')%nat →
    run_bfs max_pages fuel' st = Some (r, st').
Proof.
  destruct (bfs_loop_ends max_pages _ st 0%nat 0 (Nat.le_refl _))
    as (fuel & r & st' & H).
  destruct r as [n|e].
  - exists fuel, (Return tt),
      (set_running false (insert_END (InfoFinished n) st')).
    intros fuel' Hle. unfold run_bfs.
    now rewrite (bfs_loop_more_fuel _ _ _ _ _ _ _ H Hle).
  - exists fuel, (Raise e), st'. intros fuel' Hle. unfold run_bfs.
    now rewrite (bfs_loop_more_fuel _ _ _ _ _ _ _ H Hle).
Qed.

(** *** [run_bfs] and [start_scraping] *)

Lemma run_bfs_inv max_pages fuel st r st' :
  run_bfs max_pages fuel st = Some (r, st') →
  ∃ rl stl, bfs_loop max_pages fuel 0 0 st = Some (rl, stl)
    ∧ ((∃ n, rl = Return n ∧ r = Return tt
             ∧ st' = set_running false (insert_END (InfoFinished n) stl))
       ∨ (∃ e, rl = Raise e ∧ r = Raise e ∧ st' = stl)).
Proof.
  unfold run_bfs.
  destruct (bfs_loop max_pages fuel 0 0 st) as [[[n|e] stl]|]; intros H;
    [injection H as <- <- | injection H as <- <- | discriminate].
  - exists (Return n), stl. split; [reflexivity|]. left. now exists n.
  - exists (Raise e), stl. split; [reflexivity|]. right. now exists e.
Qed.

(** A valid form and a file system that works: [start_scraping] resets and
    seeds the frontier, clears the log, truncates the file to the header and
    starts a thread, whatever the state it is called in. *)
Lemma start_scraping_started now f st max_pages :
  PyStr.is_empty (PyStr.strip (url_entry f)) = false →
  PyStr.int (max_pages_entry f) = Some max_pages →
  open_w_fault w (chosen_file now f st) = None →
  start_scraping w now f st = (Return tt, started now f st max_pages).
Proof.
  intros Hurl Hint Hfault. unfold start_scraping, started, chosen_file in *.
  rewrite Hurl, Hint.
  destruct (use_existing_var f); simpl in *; rewrite Hfault; simpl;
    now rewrite union_empty_r_L.
Qed.

(** Whatever [start_scraping] returns, it leaves a consistent frontier. *)
Lemma start_scraping_frontier now f st r st0 :
  start_scraping w now f st = (r, st0) → frontier_ok st0.
Proof.
  unfold start_scraping, frontier_ok.
  destruct (PyStr.is_empty _).
  { intros [= _ <-]. destruct (use_existing_var f); simpl;
      (split; [constructor | intros u Hu; inversion Hu]). }
  destruct (PyStr.int _) as [max_pages|].
  2:{ intros [= _ <-]. destruct (use_existing_var f); simpl;
        (split; [constructor | intros u Hu; inversion Hu]). }
  destruct (open_and_write _ _ _ _ _) as [[[]|e] d]; intros [= _ <-];
    destruct (use_existing_var f); simpl;
    (split; [apply NoDup_singleton
            | intros u Hu; apply list_elem_of_singleton in Hu as ->;
              set_solver]).
Qed.

Lemma elem_of_http_links url links u :
  u ∈ http_links url links ↔
  ∃ href s, Some href ∈ links ∧ PyStr.truthy href = true
    ∧ urljoin url href = Some u ∧ urlparse_scheme u = Some s
    ∧ PyStr.startswith s "http" = true.
Proof.
  induction links as [|link links IH]; simpl.
  { split; [intros H; inversion H|]. intros (href & s & H & _). inversion H. }
  assert (Htail : (∃ href s, Some href ∈ links ∧ PyStr.truthy href = true
                     ∧ urljoin url href = Some u ∧ urlparse_scheme u = Some s
                     ∧ PyStr.startswith s "http" = true) →
                  ∃ href s, Some href ∈ link :: links ∧ PyStr.truthy href = true
                     ∧ urljoin url href = Some u ∧ urlparse_scheme u = Some s
                     ∧ PyStr.startswith s "http" = true).
  { intros (href & s & Hin & H). exists href, s. split; [now right | exact H]. }
  assert (Hhead : ∀ P : Prop,
             (∀ href s, link = Some href → PyStr.truthy href = true →
                        urljoin url href = Some u → urlparse_scheme u = Some s →
                        PyStr.startswith s "http" = true → P) →
             (u ∈ http_links url links → P) →
             (∃ href s, Some href ∈ link :: links ∧ PyStr.truthy href = true
                ∧ urljoin url href = Some u ∧ urlparse_scheme u = Some s
                ∧ PyStr.startswith s "http" = true) → P).
  { intros P Hh Ht (href & s & Hin & Htr & Huj & Hsc & Hst).
    apply elem_of_cons in Hin as [Heq|Hin]; [now apply (Hh href s)|].
    apply Ht, IH. now exists href, s. }
  destruct link as [href|].
  2:{ split; [intros H; now apply Htail, IH|].
      apply Hhead; [intros; discriminate | trivial]. }
  destruct (PyStr.truthy href) eqn:Htr.
  2:{ split; [intros H; now apply Htail, IH|].
      apply Hhead; [intros h0 s0 [= <-] Ht0 Huj0 Hsc0 Hst0; congruence | trivial]. }
  destruct (urljoin url href) as [a|] eqn:Huj.
  2:{ split; [intros H; now apply Htail, IH|].
      apply Hhead; [intros h0 s0 [= <-] Ht0 Huj0 Hsc0 Hst0; congruence | trivial]. }
  destruct (urlparse_scheme a) as [s|] eqn:Hsc.
  2:{ split; [intros H; now apply Htail, IH|].
      apply Hhead; [intros h0 s0 [= <-] Ht0 Huj0 Hsc0 Hst0; congruence | trivial]. }
  destruct (PyStr.startswith s "http") eqn:Hst.
  2:{ split; [intros H; now apply Htail, IH|].
      apply Hhead; [intros h0 s0 [= <-] Ht0 Huj0 Hsc0 Hst0; congruence | trivial]. }
  split.
  - intros H. apply elem_of_cons in H as [->|H]; [|now apply Htail, IH].
    exists href, s. split; [now left | now repeat split].
  - apply Hhead; [|now right]. intros h0 s0 [= <-] _ Huj' _ _. apply elem_of_cons. left. congruence.
Qed.

(** ** The claims *)

(** C1.  In every run, a URL that has been offered to the frontier (the
    seed included) is never enqueued a second time and is never popped
    twice: whatever [start_scraping] leaves, the URLs popped during any
    number of turns are pairwise distinct; when the run has ended, the popped
    URLs and the URLs still queued are pairwise distinct and all visited; and
    offering a visited URL changes nothing. *)
Theorem frontier_never_pops_twice now f st r0 st0 max_pages fuel :
  start_scraping w now f st = (r0, st0) →
  NoDup (popped max_pages fuel 0 0 st0)
  ∧ (∀ r st', run_bfs max_pages fuel st0 = Some (r, st') →
       NoDup (popped max_pages fuel 0 0 st0 ++ queue st')
       ∧ ∀ u, u ∈ (popped max_pages fuel 0 0 st0 ++ queue st')%list →
              u ∈ visited st')
  ∧ (∀ u st1, u ∈ visited st1 → offer u st1 = st1
              ∧ queue (offer u st1) = queue st1).
Proof.
  intros Hstart.
  pose proof (start_scraping_frontier _ _ _ _ _ Hstart) as Hok.
  destruct (popped_NoDup max_pages fuel 0%nat 0 st0 Hok) as [Hnd _].
  split; [exact Hnd|]. split.
  - intros r st' Hrun.
    destruct (run_bfs_inv _ _ _ _ _ Hrun) as (rl & stl & Hloop & Hend).
    destruct (bfs_loop_frontier _ _ _ _ _ _ _ Hloop Hok)
      as ([Hndq Hvis] & _ & Hpopped).
    assert (Hfront : queue st' = queue stl ∧ visited st' = visited stl).
    { destruct Hend as [(n & _ & _ & ->)|(e & _ & _ & ->)]; now split. }
    destruct Hfront as [-> ->]. split.
    + apply NoDup_app. split_and!; try assumption.
      intros u Hu. now apply Hpopped.
    + intros u Hu. apply elem_of_app in Hu as [Hu|Hu];
        [now apply Hpopped | now apply Hvis].
  - intros u st1 Hu. now rewrite (offer_visited _ _ Hu).
Qed.

(** C3 (amended).  [run_bfs] always ends, with one outcome whatever the
    fuel beyond some amount.  When its loop ends through
    its loop test, the count in the "BFS finished" line equals the number of
    [[SCRAPED]] lines of the run, and it is at most the budget when the
    budget is not negative (with a negative budget the count is 0).  In a
    turn the counter grows, by one, exactly when the fetch succeeded and the
    record was written; after a failed fetch it is unchanged. *)
Theorem page_count_equals_scraped max_pages st :
  (∃ fuel r st', ∀ fuel', (fuel ≤ fuel')%nat →
      run_bfs max_pages fuel' st = Some (r, st'))
  ∧ (∀ fuel st', run_bfs max_pages fuel st = Some (Return tt, st') →
       ∃ evs n,
         output_area st' = (output_area st ++ evs ++ [InfoFinished n])%list
         ∧ n = Z.of_nat (scraped_count evs)
         ∧ n ≤ Z.max 0 max_pages
         ∧ (0 ≤ max_pages → n ≤ max_pages))
  ∧ (∀ k page_count st0 u pc1 st1,
       bfs_turn max_pages k page_count st0 = LoopNext u pc1 st1 →
       (pc1 = page_count + 1
        ∧ (∃ page, requests_get w u = Response page)
        ∧ open_a_fault w (page_count + 1) u = None
        ∧ output_area st1
          = (output_area st0 ++ [ScrapedLine (page_count + 1) u])%list)
       ∨ (pc1 = page_count
          ∧ ∃ e, requests_get w u = RequestException e
                 ∧ output_area st1 = (output_area st0 ++ [ErrorLine u e])%list)).
Proof.
  split; [apply run_bfs_ends|]. split.
  - intros fuel st' Hrun.
    destruct (run_bfs_inv _ _ _ _ _ Hrun) as (rl & stl & Hloop & Hend).
    destruct Hend as [(n & -> & _ & ->)|(e & _ & He & _)]; [|discriminate].
    destruct (bfs_loop_log _ _ _ _ _ _ _ Hloop)
      as (evs & written & Hoa & _ & _ & _ & _ & _ & _ & Hn).
    destruct (Hn n eq_refl) as [Hcount Hle].
    exists evs, n. simpl. rewrite Hoa, <- app_assoc.
    split_and!; [reflexivity | lia | lia | lia].
  - intros k page_count st0 u pc1 st1 Ht.
    pose proof (bfs_turn_spec max_pages k page_count st0) as Hs.
    rewrite Ht in Hs. destruct Hs as (_ & _ & _ & success & Hpop & ->).
    destruct Hpop as (rest & new & evs & written & _ & _ & _ & _ & Hoa & _ & _
                      & Hcases).
    destruct Hcases as [(e & Hget & Hs & _ & -> & _)
                       |[(page & _ & _ & Hs & _)
                        |[(page & Hget & Hfault & Hs & -> & _)
                         |[(e & _ & Hs & _)|(_ & Hs & _)]]]].
    + right. injection Hs as ->. split; [reflexivity|]. now exists e.
    + discriminate.
    + left. destruct Hs as [Hs|Hs]; [|discriminate]. injection Hs as ->.
      split_and!; try done. now exists page.
    + discriminate.
    + destruct Hs; discriminate.
Qed.

(** C6 (amended).  A URL whose fetch raises a [RequestException]:
    [scrape_page] catches it and returns [False]; the turn adds exactly one
    [[ERROR]] line to the log, leaves the page counter, the files and the
    visited set as they were, takes the URL out of the queue without putting
    it back, and the loop goes on with the next URL; the URL is not popped
    again.  The fetch raises when [requests.get] raises (time-out,
    connection failure, any other request error) and when the status of the
    answer is from 400 to 599; an answer with any other status, 2xx or
    not, is a response and is scraped. *)
Theorem failed_fetch_is_skipped max_pages k page_count st url rest e :
  stop_clicks w k = false → running st = true → page_count < max_pages →
  queue st = url :: rest → requests_get w url = RequestException e →
  let st1 := insert_END (ErrorLine url e) (set_frontier rest (visited st) st) in
  scrape_page url (page_count + 1) (set_frontier rest (visited st) st)
    = (Return false, st1)
  ∧ bfs_turn max_pages k page_count st = LoopNext url page_count st1
  ∧ output_area st1 = (output_area st ++ [ErrorLine url e])%list
  ∧ queue st1 = rest ∧ visited st1 = visited st ∧ disk st1 = disk st
  ∧ (∀ fuel, bfs_loop max_pages (S fuel) k page_count st
             = bfs_loop max_pages fuel (S k) page_count st1)
  ∧ (frontier_ok st → ∀ fuel, url ∉ popped max_pages fuel (S k) page_count st1)
  ∧ (∀ e', try_get (TransferFailed e') = RequestException e')
  ∧ (∀ resp page,
       (400 ≤ status_code resp < 600 →
        ∃ e', raise_for_status resp = Some e'
              ∧ try_get (Transferred resp page) = RequestException e')
       ∧ (¬ 400 ≤ status_code resp < 600 →
          try_get (Transferred resp page) = Response page)).
Proof.
  intros Hstop Hrun Hlt Hq Hget st1.
  assert (Hsp : scrape_page url (page_count + 1)
                  (set_frontier rest (visited st) st) = (Return false, st1))
    by now apply scrape_page_failed.
  assert (Ht : bfs_turn max_pages k page_count st = LoopNext url page_count st1).
  { unfold bfs_turn. rewrite Hstop, Hrun, Hq.
    destruct (Z.ltb_spec page_count max_pages) as [_|Hge]; [|lia].
    simpl. now rewrite Hsp. }
  split_and!; try done.
  - intros fuel. simpl. now rewrite Ht.
  - intros [Hnd Hvis] fuel Hin. rewrite Hq in Hnd, Hvis.
    apply NoDup_cons in Hnd as [Hu Hrest].
    assert (Hok1 : frontier_ok st1).
    { split; simpl; [exact Hrest | intros x Hx; apply Hvis; now right]. }
    destruct (popped_NoDup max_pages fuel (S k) page_count st1 Hok1) as [_ Hp].
    destruct (Hp url Hin) as [Hq1|Hv1]; simpl in *; [contradiction|].
    apply Hv1, Hvis. now left.
  - intros resp page. unfold try_get, raise_for_status. split.
    + intros [Hlo Hhi].
      destruct (Z.leb_spec 400 (status_code resp)) as [_|?]; [|lia].
      destruct (Z.ltb_spec (status_code resp) 500) as [?|?]; simpl;
        [eexists; split; reflexivity|].
      destruct (Z.leb_spec 500 (status_code resp)) as [_|?]; [|lia].
      destruct (Z.ltb_spec (status_code resp) 600) as [_|?]; [|lia].
      simpl. eexists; split; reflexivity.
    + intros Hout.
      destruct (Z.leb_spec 400 (status_code resp)) as [?|?];
        destruct (Z.ltb_spec (status_code resp) 500) as [?|?]; simpl;
        try lia;
        destruct (Z.leb_spec 500 (status_code resp)) as [?|?];
        destruct (Z.ltb_spec (status_code resp) 600) as [?|?]; simpl;
        try lia; reflexivity.
Qed.

(** C8 (amended).  An exit of the loop of [run_bfs] through its loop test
    (budget reached, queue empty, stop seen) produces exactly one "BFS
    finished" line and clears [running].  An [OSError] while a record is
    appended is not caught: it leaves [scrape_page], the loop and [run_bfs],
    and no "BFS finished" line is produced.  Either way the corpus file
    keeps what it held, new text only follows it, and no other file
    changes. *)
Theorem loop_exit_reports max_pages :
  (∀ fuel st r st', run_bfs max_pages fuel st = Some (r, st') →
     ∃ evs written,
       output_area st' = (output_area st ++ evs)%list
       ∧ file_content (disk st') (output_file st)
         = file_content (disk st) (output_file st) ++ written
       ∧ (∀ q, output_file st ≠ q →
               file_content (disk st') q = file_content (disk st) q)
       ∧ (r = Return tt → finished_count evs = 1%nat ∧ running st' = false)
       ∧ (∀ e, r = Raise e → finished_count evs = 0%nat))
  ∧ (∀ k page_count st url rest page n,
       stop_clicks w k = false → running st = true → page_count < max_pages →
       queue st = url :: rest → requests_get w url = Response page →
       open_a_fault w (page_count + 1) url = Some n →
       ∃ st1, scrape_page url (page_count + 1)
                (set_frontier rest (visited st) st) = (Raise OSError, st1)
         ∧ output_area st1 = output_area st
         ∧ (∀ fuel, bfs_loop max_pages (S fuel) k page_count st
                    = Some (Raise OSError, st1))).
Proof.
  split.
  - intros fuel st r st' Hrun.
    destruct (run_bfs_inv _ _ _ _ _ Hrun) as (rl & stl & Hloop & Hend).
    destruct (bfs_loop_log _ _ _ _ _ _ _ Hloop)
      as (evs & written & Hoa & Hfin & _ & Hof & Hfc & Hoth & _ & _).
    destruct Hend as [(n & -> & -> & ->)|(e & -> & -> & ->)].
    + exists (evs ++ [InfoFinished n])%list,
        (record_blocks w (scraped_pages evs) ++ written).
      simpl. rewrite Hoa, <- app_assoc, finished_count_app, Hfin.
      split_and!; try done.
    + exists evs, (record_blocks w (scraped_pages evs) ++ written).
      split_and!; done.
  - intros k page_count st url rest page n Hstop Hrun Hlt Hq Hget Hfault.
    destruct (scrape_page url (page_count + 1)
                (set_frontier rest (visited st) st)) as [r st1] eqn:Hsp.
    destruct (scrape_page_spec _ _ _ _ _ Hsp)
      as (new & evs & written & _ & _ & _ & Hoa & _ & _ & Hcases).
    destruct Hcases as [(e & Hget' & _)
                       |[(page' & _ & _ & -> & _ & ->)
                        |[(page' & _ & Hnone & _)
                         |[(e & Hget' & _)|(Hget' & _)]]]];
      [congruence | | congruence | congruence | congruence].
    exists st1. simpl in Hoa. rewrite app_nil_r in Hoa.
    split_and!; try done.
    intros fuel. simpl. unfold bfs_turn. rewrite Hstop, Hrun, Hq.
    destruct (Z.ltb_spec page_count max_pages) as [_|Hge]; [|lia].
    simpl. now rewrite Hsp.
Qed.




(** ** Further properties of the engine *)

Lemma offer_all_spec urls : ∀ st,
  queue (offer_all urls st) = (queue st ++ new_urls (visited st) urls)%list
  ∧ visited (offer_all urls st) = list_to_set urls ∪ visited st
  ∧ same_but_frontier st (offer_all urls st).
Proof.
  induction urls as [|u urls IH]; intros st; simpl.
  - rewrite app_nil_r. split_and!; [reflexivity | set_solver | now repeat split].
  - destruct (IH (offer u st)) as (Hq & Hv & Hs).
    unfold offer_all in *. simpl. rewrite Hq, Hv. unfold offer.
    destruct (decide (u ∈ visited st)) as [Hin|Hnin].
    + split_and!; [reflexivity | set_solver |].
      revert Hs. unfold offer. now rewrite decide_True.
    + simpl. rewrite <- app_assoc. split_and!; [reflexivity | set_solver |].
      revert Hs. unfold offer. rewrite decide_False by assumption.
      unfold same_but_frontier. simpl. tauto.
Qed.

Lemma new_urls_spec urls : ∀ seen,
  NoDup (new_urls seen urls)
  ∧ ∀ x, x ∈ new_urls seen urls ↔ x ∈ urls ∧ x ∉ seen.
Proof.
  induction urls as [|u urls IH]; intros seen; simpl.
  { split; [constructor|]. intros x. split; [intros H; inversion H|].
    intros [H _]. inversion H. }
  destruct (decide (u ∈ seen)) as [Hin|Hnin].
  - destruct (IH seen) as [Hnd Hx]. split; [exact Hnd|].
    intros x. rewrite Hx, elem_of_cons. split; [tauto|].
    intros [[->|H] Hs]; [contradiction | tauto].
  - destruct (IH ({[u]} ∪ seen)) as [Hnd Hx]. split.
    + apply NoDup_cons. split; [|exact Hnd]. rewrite Hx. set_solver.
    + intros x. rewrite !elem_of_cons, Hx. split.
      * intros [->|[H Hs]]; [tauto|]. split; [tauto | set_solver].
      * intros [[->|H] Hs]; [tauto|].
        destruct (decide (x = u)) as [->|Hne]; [tauto|]. right.
        split; [exact H | set_solver].
Qed.

(** X1.  The links of one page reach the queue in document order, each
    at most once, and only when not yet visited: after the link loop of
    [scrape_page] the queue is the old queue followed by the new [http]
    links, and [visited] has gained every [http] link of the page. *)
Theorem links_enqueued_once_in_order url links st st' :
  follow_links url links st = (Return tt, st') →
  queue st' = (queue st ++ new_urls (visited st) (http_links url links))%list
  ∧ visited st' = list_to_set (http_links url links) ∪ visited st
  ∧ NoDup (new_urls (visited st) (http_links url links))
  ∧ ∀ x, x ∈ new_urls (visited st) (http_links url links) ↔
         x ∈ http_links url links ∧ x ∉ visited st.
Proof.
  intros H. rewrite (follow_links_offers _ _ _ _ H).
  destruct (offer_all_spec (http_links url links) st) as (Hq & Hv & _).
  destruct (new_urls_spec (http_links url links) (visited st)) as [Hnd Hx].
  now split_and!.
Qed.

Lemma stop_turn max_pages k page_count st :
  stop_clicks w k = true →
  bfs_turn max_pages k page_count st = LoopExit (stop_scraping st).
Proof. intros Hstop. unfold bfs_turn. now rewrite Hstop. Qed.

Lemma bfs_loop_until_stop max_pages j : ∀ d k fuel page_count st,
  stop_clicks w j = true → j = (k + d)%nat → (d < fuel)%nat →
  ∃ r st',
    bfs_loop max_pages fuel k page_count st = Some (r, st')
    ∧ (length (popped max_pages fuel k page_count st) ≤ d)%nat
    ∧ ∀ n, r = Return n → n ≤ page_count + Z.of_nat d.
Proof.
  induction d as [|d IH]; intros k fuel page_count st Hstop Hj Hfuel;
    (destruct fuel as [|fuel]; [lia|]); cbn [bfs_loop popped].
  - replace k with j by lia. rewrite (stop_turn _ _ _ _ Hstop).
    eexists _, _. split; [reflexivity|]. split; [simpl; lia|].
    intros n [= <-]. lia.
  - pose proof (bfs_turn_spec max_pages k page_count st) as Ht.
    destruct (bfs_turn max_pages k page_count st) as [st1|u pc1 st1|u e st1].
    + eexists _, _. split; [reflexivity|]. split; [simpl; lia|].
      intros n [= <-]. lia.
    + destruct Ht as (_ & _ & _ & success & _ & ->).
      destruct (IH (S k) fuel (if success then page_count + 1 else page_count)
                  st1 Hstop ltac:(lia) ltac:(lia))
        as (r & st' & Hloop & Hlen & Hn).
      exists r, st'. split; [exact Hloop|]. split; [simpl; lia|].
      intros n Hr. specialize (Hn n Hr). destruct success; lia.
    + eexists _, _. split; [reflexivity|]. split; [simpl; lia|].
      intros n [= ].
Qed.

(** X2.  Stop is cooperative and it bounds the run.  When Stop is pressed
    before loop test [j], the loop ends at that test at the latest, with
    the page count it has and without popping a URL there; so the run ends
    within [j + 1] tests, has fetched at most [j] URLs, and reports at most
    [j] pages, whatever is left of the queue and of the budget. *)
Theorem stop_bounds_the_run max_pages j st :
  stop_clicks w j = true →
  (∀ page_count st0 fuel,
     bfs_loop max_pages (S fuel) j page_count st0
     = Some (Return page_count, stop_scraping st0)
     ∧ queue (stop_scraping st0) = queue st0
     ∧ visited (stop_scraping st0) = visited st0
     ∧ disk (stop_scraping st0) = disk st0)
  ∧ ∃ r st',
      (∀ fuel, (j < fuel)%nat → run_bfs max_pages fuel st = Some (r, st'))
      ∧ (length (popped max_pages (S j) 0 0 st) ≤ j)%nat
      ∧ ∀ n, last (output_area st') = Some (InfoFinished n) →
             r = Return tt → n ≤ Z.of_nat j.
Proof.
  intros Hstop. split.
  - intros page_count st0 fuel. cbn [bfs_loop].
    rewrite (stop_turn _ _ _ _ Hstop). now split_and!.
  - destruct (bfs_loop_until_stop max_pages j j 0%nat (S j) 0 st Hstop
                eq_refl ltac:(lia)) as (rl & stl & Hloop & Hlen & Hn).
    destruct rl as [n|e].
    + exists (Return tt),
        (set_running false (insert_END (InfoFinished n) stl)).
      split_and!.
      * intros fuel Hf. unfold run_bfs.
        now rewrite (bfs_loop_more_fuel max_pages (S j) fuel 0%nat 0 st _ Hloop)
          by lia.
      * exact Hlen.
      * intros n'. simpl. rewrite last_snoc. intros [= <-] _.
        specialize (Hn n eq_refl). lia.
    + exists (Raise e), stl. split_and!.
      * intros fuel Hf. unfold run_bfs.
        now rewrite (bfs_loop_more_fuel max_pages (S j) fuel 0%nat 0 st _ Hloop)
          by lia.
      * exact Hlen.
      * intros n' _ [= ].
Qed.

Lemma bfs_loop_queue_order max_pages : ∀ fuel k page_count st r st',
  bfs_loop max_pages fuel k page_count st = Some (r, st') →
  ∃ found,
    (popped max_pages fuel k page_count st ++ queue st')%list
    = (queue st ++ found)%list
    ∧ visited st' = list_to_set found ∪ visited st
    ∧ NoDup found
    ∧ ∀ x, x ∈ found → x ∉ visited st.
Proof.
  induction fuel as [|fuel IH]; intros k page_count st r st' H;
    simpl in H |- *; [discriminate|].
  pose proof (bfs_turn_spec max_pages k page_count st) as Ht.
  destruct (bfs_turn max_pages k page_count st) as [st1|u pc1 st1|u e st1].
  - injection H as <- <-. exists []. rewrite app_nil_r.
    destruct Ht as [[->| ->] _]; simpl;
      (split_and!; [reflexivity | set_solver | constructor | set_solver]).
  - destruct Ht as (_ & _ & _ & success & Hpop & _).
    destruct Hpop as (rest & new & evs & written & Hq & Hg & _).
    destruct Hg as (Hq1 & Hv1 & Hnd1 & Hf1). simpl in Hq1, Hv1, Hf1.
    destruct (IH _ _ _ _ _ H) as (found & Happ & Hv & Hnd & Hf).
    exists (new ++ found)%list. split_and!.
    + simpl. rewrite Happ, Hq1, Hq. simpl. now rewrite <- app_assoc.
    + rewrite Hv, Hv1. set_solver.
    + apply NoDup_app. split_and!; try assumption.
      intros x Hx Hx'. apply (Hf x Hx'). rewrite Hv1. set_solver.
    + intros x Hx Hvis. apply elem_of_app in Hx as [Hx|Hx];
        [now apply (Hf1 x) | apply (Hf x Hx); rewrite Hv1; set_solver].
  - injection H as <- <-. destruct Ht as (_ & _ & _ & Hpop).
    destruct Hpop as (rest & new & evs & written & Hq & Hg & _).
    destruct Hg as (Hq1 & Hv1 & Hnd1 & Hf1). simpl in Hq1, Hv1, Hf1.
    exists new. split_and!; try assumption.
    simpl. now rewrite Hq1, Hq.
Qed.

(** X3.  The queue is first in, first out: when a run has ended, in
    whatever way, the URLs it popped followed by the URLs still queued are
    the URLs queued at the beginning followed by the URLs discovered
    during the run, in the order of discovery; the discovered URLs are
    pairwise distinct, were not visited before, and are what [visited] has
    gained. *)
Theorem urls_are_popped_in_queue_order max_pages fuel st r st' :
  run_bfs max_pages fuel st = Some (r, st') →
  ∃ found,
    (popped max_pages fuel 0 0 st ++ queue st')%list
    = (queue st ++ found)%list
    ∧ visited st' = list_to_set found ∪ visited st
    ∧ NoDup found
    ∧ ∀ x, x ∈ found → x ∉ visited st.
Proof.
  intros H.
  destruct (run_bfs_inv _ _ _ _ _ H) as (rl & stl & Hloop & Hend).
  destruct (bfs_loop_queue_order _ _ _ _ _ _ _ Hloop)
    as (found & Hq & Hv & Hnd & Hf).
  exists found.
  destruct Hend as [(n & _ & _ & ->)|(e & _ & _ & ->)]; now split_and!.
Qed.

Lemma bfs_turn_exit_no_stop max_pages k page_count st st' :
  stop_clicks w k = false →
  bfs_turn max_pages k page_count st = LoopExit st' →
  st' = st ∧ (running st = false ∨ max_pages ≤ page_count ∨ queue st = []).
Proof.
  unfold bfs_turn. intros ->.
  destruct (running st); simpl; [|intros [= <-]; split; [reflexivity | now left]].
  destruct (Z.ltb_spec page_count max_pages) as [Hlt|Hge];
    [|intros [= <-]; split; [reflexivity | right; left; lia]].
  destruct (queue st) as [|u rest];
    [intros [= <-]; split; [reflexivity | now right; right]|].
  destruct (scrape_page _ _ _) as [[success|e] st1]; discriminate.
Qed.

Lemma bfs_loop_exit_reason max_pages : ∀ fuel k page_count st n st',
  (∀ j, stop_clicks w j = false) → running st = true →
  bfs_loop max_pages fuel k page_count st = Some (Return n, st') →
  (max_pages ≤ n ∨ queue st' = []) ∧ running st' = true.
Proof.
  induction fuel as [|fuel IH]; intros k page_count st n st' Hstop Hrun H;
    simpl in H; [discriminate|].
  pose proof (bfs_turn_spec max_pages k page_count st) as Ht.
  destruct (bfs_turn max_pages k page_count st) as [st1|u pc1 st1|u e st1]
    eqn:Hturn.
  - injection H as <- <-.
    destruct (bfs_turn_exit_no_stop _ _ _ _ _ (Hstop k) Hturn) as [-> Hwhy].
    split; [|exact Hrun]. rewrite Hrun in Hwhy.
    destruct Hwhy as [Hf|[Hle|Hq]]; [discriminate | now left | now right].
  - destruct Ht as (_ & _ & _ & success & Hpop & _).
    destruct Hpop as (rest & new & evs & written & _ & _ & Hr & _).
    apply (IH (S k) pc1 st1 n st' Hstop); [congruence | exact H].
  - discriminate.
Qed.

(** X4.  Why a run ends: when Stop is never pressed, a run that ends
    through its loop test has either scraped exactly [max_pages] pages or
    emptied the queue (the budget being at least 0). *)
Theorem run_ends_on_budget_or_empty_queue max_pages fuel st st' :
  (∀ j, stop_clicks w j = false) → running st = true → 0 ≤ max_pages →
  run_bfs max_pages fuel st = Some (Return tt, st') →
  ∃ n, last (output_area st') = Some (InfoFinished n)
    ∧ (n = max_pages ∨ queue st' = []).
Proof.
  intros Hstop Hrun Hmax H.
  destruct (run_bfs_inv _ _ _ _ _ H) as (rl & stl & Hloop & Hend).
  destruct Hend as [(n & -> & _ & ->)|(e & _ & He & _)]; [|discriminate].
  destruct (bfs_loop_exit_reason _ _ _ _ _ _ _ Hstop Hrun Hloop) as [Hwhy _].
  destruct (bfs_loop_log _ _ _ _ _ _ _ Hloop)
    as (evs & written & _ & _ & _ & _ & _ & _ & _ & Hn).
  destruct (Hn n eq_refl) as [_ Hle].
  exists n. simpl. rewrite last_snoc. split; [reflexivity|].
  destruct Hwhy as [Hge|Hq]; [left; lia | now right].
Qed.

Lemma fetched_urls_app (a b : list log_entry) :
  fetched_urls (a ++ b) = (fetched_urls a ++ fetched_urls b)%list.
Proof.
  induction a as [|[] a IH]; simpl; try assumption; [reflexivity| |];
    now rewrite IH.
Qed.

Lemma bfs_loop_fetched max_pages : ∀ fuel k page_count st r st',
  bfs_loop max_pages fuel k page_count st = Some (r, st') →
  ∃ evs unlogged,
    output_area st' = (output_area st ++ evs)%list
    ∧ popped max_pages fuel k page_count st
      = (fetched_urls evs ++ unlogged)%list
    ∧ (length unlogged ≤ 1)%nat
    ∧ (∀ n, r = Return n → unlogged = []).
Proof.
  induction fuel as [|fuel IH]; intros k page_count st r st' H;
    simpl in H |- *; [discriminate|].
  pose proof (bfs_turn_spec max_pages k page_count st) as Ht.
  destruct (bfs_turn max_pages k page_count st) as [st1|u pc1 st1|u e st1].
  - injection H as <- <-. destruct Ht as [[->| ->] _].
    + exists [], []. rewrite app_nil_r. simpl. split_and!; try done. lia.
    + exists [InfoStopRequested], []. simpl. split_and!; try done. lia.
  - destruct Ht as (_ & _ & _ & success & Hpop & _).
    destruct Hpop as (rest & new & evs1 & written & _ & _ & _ & _ & Hoa & _
                      & _ & Hcases).
    destruct (IH _ _ _ _ _ H) as (evs2 & unlogged & Hoa2 & Hf2 & Hlen & Hret).
    exists (evs1 ++ evs2)%list, unlogged. rewrite Hoa2, Hoa, app_assoc.
    split; [reflexivity|]. rewrite fetched_urls_app, Hf2.
    split; [|now split].
    destruct Hcases as [(e & _ & _ & _ & -> & _)
                       |[(page & _ & _ & Hs & _)
                        |[(page & _ & _ & _ & -> & _)
                         |[(e & _ & Hs & _)|(_ & Hs & _)]]]];
      [reflexivity | discriminate | reflexivity | discriminate
      | destruct Hs; discriminate].
  - injection H as <- <-. destruct Ht as (_ & _ & _ & Hpop).
    destruct Hpop as (rest & new & evs1 & written & _ & _ & _ & _ & Hoa & _
                      & _ & Hcases).
    destruct Hcases as [(e' & _ & Hs & _)
                       |[(page & _ & _ & _ & _ & ->)
                        |[(page & _ & _ & _ & -> & _)
                         |[(e' & _ & _ & _ & -> & _)|(_ & _ & _ & ->)]]]];
      [discriminate | exists [], [u] | exists [ScrapedLine (page_count + 1) u], []
      | exists [], [u] | exists [], [u]];
      (split; [exact Hoa|]); simpl; split_and!; try done; lia.
Qed.

(** X5.  The log tells what was fetched, in order: the URLs of the
    [[ERROR]] and [[SCRAPED]] lines that a run adds to the log are the URLs
    it popped, in the order it popped them; only the URL popped last can
    lack a line, and only when an exception ended the run. *)
Theorem log_lists_the_fetches max_pages fuel st r st' :
  run_bfs max_pages fuel st = Some (r, st') →
  ∃ evs unlogged,
    output_area st' = (output_area st ++ evs)%list
    ∧ popped max_pages fuel 0 0 st = (fetched_urls evs ++ unlogged)%list
    ∧ (length unlogged ≤ 1)%nat
    ∧ (r = Return tt → unlogged = []).
Proof.
  intros H.
  destruct (run_bfs_inv _ _ _ _ _ H) as (rl & stl & Hloop & Hend).
  destruct (bfs_loop_fetched _ _ _ _ _ _ _ Hloop)
    as (evs & unlogged & Hoa & Hf & Hlen & Hret).
  destruct Hend as [(n & -> & -> & ->)|(e & -> & -> & ->)].
  - exists (evs ++ [InfoFinished n])%list, unlogged. simpl.
    rewrite Hoa, <- app_assoc, fetched_urls_app, Hf. simpl.
    rewrite app_nil_r. split_and!; try done. intros _. now apply (Hret n).
  - exists evs, unlogged. split_and!; try done.
Qed.

Lemma new_urls_app (a b : list string) : ∀ seen,
  new_urls seen (a ++ b)
  = (new_urls seen a ++ new_urls (list_to_set a ∪ seen) b)%list.
Proof.
  induction a as [|u a IH]; intros seen; simpl.
  - f_equal. set_solver.
  - destruct (decide (u ∈ seen)) as [Hin|Hnin]; rewrite IH; simpl.
    + do 2 f_equal. set_solver.
    + do 3 f_equal. set_solver.
Qed.

Lemma discovered_app (a b : list (Z * string)) :
  discovered (a ++ b) = (discovered a ++ discovered b)%list.
Proof.
  induction a as [|[n u] a IH]; simpl; [reflexivity|].
  now rewrite IH, app_assoc.
Qed.

Lemma bfs_turn_next_inv max_pages k page_count st u pc1 st1 :
  bfs_turn max_pages k page_count st = LoopNext u pc1 st1 →
  ∃ rest success,
    queue st = u :: rest
    ∧ scrape_page u (page_count + 1) (set_frontier rest (visited st) st)
      = (Return success, st1)
    ∧ pc1 = if success then page_count + 1 else page_count.
Proof.
  unfold bfs_turn. destruct (stop_clicks w k); [discriminate|].
  destruct (running st && (page_count <? max_pages)); [|discriminate].
  destruct (queue st) as [|u' rest]; [discriminate|].
  destruct (scrape_page _ _ _) as [[success|e] st2] eqn:Hsp; [|discriminate].
  intros [= <- <- <-]. now exists rest, success.
Qed.

Lemma scrape_page_links u page_id st st' :
  scrape_page u page_id st = (Return true, st') →
  queue st'
  = (queue st ++ new_urls (visited st) (http_links u (links_of w u)))%list
  ∧ visited st' = list_to_set (http_links u (links_of w u)) ∪ visited st
  ∧ output_area st' = (output_area st ++ [ScrapedLine page_id u])%list.
Proof.
  unfold scrape_page, links_of.
  destruct (requests_get w u) as [e|page|e|];
    [discriminate | | discriminate
    | destruct (open_and_write _ _ _ _ _) as [[[]|e] d]; discriminate].
  destruct (open_and_write _ _ _ _ _) as [[[]|e] d]; [|discriminate].
  destruct (follow_links _ _ _) as [[[]|e] stl] eqn:Hl; [|discriminate].
  intros [= <-]. rewrite (follow_links_offers _ _ _ _ Hl).
  destruct (offer_all_spec (http_links u (find_all_a page))
              (insert_END (ScrapedLine page_id u) (set_disk d st)))
    as (Hq & Hv & Hs).
  destruct Hs as (_ & _ & Hoa & _). now rewrite Hq, Hv, Hoa.
Qed.

Lemma bfs_loop_crawled max_pages : ∀ fuel k page_count st n st',
  bfs_loop max_pages fuel k page_count st = Some (Return n, st') →
  ∃ evs,
    output_area st' = (output_area st ++ evs)%list
    ∧ (popped max_pages fuel k page_count st ++ queue st')%list
      = (queue st
           ++ new_urls (visited st) (discovered (scraped_pages evs)))%list
    ∧ visited st' = list_to_set (discovered (scraped_pages evs)) ∪ visited st.
Proof.
  induction fuel as [|fuel IH]; intros k page_count st n st' H;
    simpl in H |- *; [discriminate|].
  pose proof (bfs_turn_spec max_pages k page_count st) as Ht.
  destruct (bfs_turn max_pages k page_count st) as [st1|u pc1 st1|u e st1]
    eqn:Hturn.
  - injection H as <- <-. destruct Ht as [[->| ->] _].
    + exists []. simpl. rewrite !app_nil_r. split_and!; [done..|set_solver].
    + exists [InfoStopRequested]. simpl. rewrite !app_nil_r.
      split_and!; [done..|set_solver].
  - destruct (bfs_turn_next_inv _ _ _ _ _ _ _ Hturn)
      as (rest & success & Hq & Hsp & _).
    destruct (IH _ _ _ _ _ H) as (evs2 & Hoa2 & Hpq & Hv2).
    assert (Hone : ∃ evs1,
               output_area st1 = (output_area st ++ evs1)%list
               ∧ queue st1
                 = (rest ++ new_urls (visited st)
                              (discovered (scraped_pages evs1)))%list
               ∧ visited st1
                 = list_to_set (discovered (scraped_pages evs1)) ∪ visited st).
    { destruct success.
      - destruct (scrape_page_links _ _ _ _ Hsp) as (Hq1 & Hv1 & Hoa1).
        exists [ScrapedLine (page_count + 1) u]. simpl in *.
        rewrite !app_nil_r. now split_and!.
      - destruct (scrape_page_spec _ _ _ _ _ Hsp)
          as (new & evs & written & Hg & _ & _ & Hoa & _ & _ & Hcases).
        destruct Hg as (Hq1 & Hv1 & _). simpl in Hq1, Hv1, Hoa.
        destruct Hcases as [(e & _ & _ & -> & -> & _)
                           |[(page & _ & _ & Hs & _)
                            |[(page & _ & _ & Hs & _)
                             |[(e & _ & Hs & _)|(_ & Hs & _)]]]].
        + exists [ErrorLine u e]. simpl. rewrite app_nil_r in *.
          split_and!; [done..|]. rewrite Hv1. set_solver.
        + discriminate.
        + destruct Hs as [Hs|Hs]; discriminate.
        + discriminate.
        + destruct Hs as [Hs|Hs]; discriminate. }
    destruct Hone as (evs1 & Hoa1 & Hq1 & Hv1).
    exists (evs1 ++ evs2)%list.
    rewrite scraped_pages_app, discovered_app, new_urls_app.
    split_and!.
    + now rewrite Hoa2, Hoa1, app_assoc.
    + simpl. rewrite Hpq, Hq1, Hv1, Hq. simpl. now rewrite <- app_assoc.
    + rewrite Hv2, Hv1. set_solver.
  - discriminate.
Qed.

(** X6.  What a run crawls is fixed by the pages it scraped: when a run
    ends through its loop test, [visited] has gained exactly the [http]
    links of the scraped pages, and the URLs popped, followed by the URLs
    still queued, are the initial queue followed by those links in page and
    document order, each once and without the URLs visited at the start. *)
Theorem crawl_is_links_of_scraped_pages max_pages fuel st st' :
  run_bfs max_pages fuel st = Some (Return tt, st') →
  ∃ evs n,
    output_area st' = (output_area st ++ evs ++ [InfoFinished n])%list
    ∧ (popped max_pages fuel 0 0 st ++ queue st')%list
      = (queue st
           ++ new_urls (visited st) (discovered (scraped_pages evs)))%list
    ∧ visited st' = list_to_set (discovered (scraped_pages evs)) ∪ visited st.
Proof.
  intros H.
  destruct (run_bfs_inv _ _ _ _ _ H) as (rl & stl & Hloop & Hend).
  destruct Hend as [(n & -> & _ & ->)|(e & _ & He & _)]; [|discriminate].
  destruct (bfs_loop_crawled _ _ _ _ _ _ _ Hloop) as (evs & Hoa & Hpq & Hv).
  exists evs, n. simpl. rewrite Hoa, <- app_assoc. now split_and!.
Qed.

Lemma scrape_page_settings u page_id st r st' :
  scrape_page u page_id st = (r, st') → same_settings st st'.
Proof.
  unfold scrape_page.
  destruct (requests_get w u) as [e|page|e|];
    [intros [= <- <-]; now repeat split | | intros [= <- <-]; now repeat split
    | destruct (open_and_write _ _ _ _ _) as [[[]|e] d];
      intros [= <- <-]; now repeat split].
  destruct (open_and_write _ _ _ _ _) as [[[]|e] d];
    [|intros [= <- <-]; now repeat split].
  destruct (follow_links _ _ _) as [rl stl] eqn:Hl.
  destruct (follow_links_grows _ _ _ _ _ Hl) as (new & _ & Hs).
  destruct Hs as (_ & Hof & _ & Hth & Her & _).
  destruct rl as [[]|e]; intros [= <- <-]; now repeat split.
Qed.

Lemma bfs_loop_settings max_pages : ∀ fuel k page_count st r st',
  bfs_loop max_pages fuel k page_count st = Some (r, st') →
  same_settings st st'.
Proof.
  induction fuel as [|fuel IH]; intros k page_count st r st' H;
    simpl in H; [discriminate|].
  unfold bfs_turn in H.
  set (st0 := if stop_clicks w k then stop_scraping st else st) in H.
  assert (H0 : same_settings st st0).
  { unfold st0. destruct (stop_clicks w k); now repeat split. }
  destruct (running st0 && (page_count <? max_pages));
    [|injection H as <- <-; exact H0].
  destruct (queue st0) as [|u rest]; [injection H as <- <-; exact H0|].
  destruct (scrape_page _ _ _) as [[success|e] st1] eqn:Hsp.
  - pose proof (scrape_page_settings _ _ _ _ _ Hsp) as H1.
    pose proof (IH _ _ _ _ _ H) as H2.
    unfold same_settings in *. simpl in H1. intuition congruence.
  - injection H as <- <-.
    pose proof (scrape_page_settings _ _ _ _ _ Hsp) as H1.
    unfold same_settings in *. simpl in H1. intuition congruence.
Qed.

(** X7.  What a run never does: [run_bfs] starts no thread, shows no
    error dialog and keeps [output_file]; the only file whose content can
    change is that one. *)
Theorem run_keeps_settings max_pages fuel st r st' :
  run_bfs max_pages fuel st = Some (r, st') →
  output_file st' = output_file st ∧ threads st' = threads st
  ∧ errors_shown st' = errors_shown st
  ∧ ∀ q, output_file st ≠ q →
         file_content (disk st') q = file_content (disk st) q.
Proof.
  intros H.
  destruct (run_bfs_inv _ _ _ _ _ H) as (rl & stl & Hloop & Hend).
  destruct (bfs_loop_settings _ _ _ _ _ _ _ Hloop) as (Hof & Hth & Her).
  destruct (bfs_loop_log _ _ _ _ _ _ _ Hloop)
    as (evs & written & _ & _ & _ & _ & _ & Hoth & _).
  destruct Hend as [(n & _ & _ & ->)|(e & _ & _ & ->)]; simpl; now split_and!.
Qed.

(** *** [start_scraping] and [get_timestamped_filename] *)



(** X9.  A budget entry that [int] does not accept is refused: with a URL,
    [start_scraping] shows "Max pages must be an integer.", writes no file,
    starts no thread, does not enqueue the seed and leaves [running] and
    the log as they were; the frontier has been emptied.  The entries are
    plain text ([plain_entries]): [int] accepts digits and white space
    outside ASCII, which [PyStr.int] does not read. *)
Theorem non_integer_budget_is_refused now f st :
  plain_entries f = true →
  PyStr.is_empty (PyStr.strip (url_entry f)) = false →
  PyStr.int (max_pages_entry f) = None →
  ∃ st',
    start_scraping w now f st = (Return tt, st')
    ∧ errors_shown st'
      = (errors_shown st ++ ["Max pages must be an integer."])%list
    ∧ disk st' = disk st ∧ threads st' = threads st
    ∧ running st' = running st ∧ output_area st' = output_area st
    ∧ queue st' = [] ∧ visited st' = ∅
    ∧ output_file st' = chosen_file now f st.
Proof.
  intros _ Hurl Hint. unfold start_scraping, chosen_file.
  rewrite Hurl, Hint. eexists. split; [reflexivity|].
  destruct (use_existing_var f); now split_and!.
Qed.

Lemma length_append (s t : string) :
  String.length (s ++ t) = (String.length s + String.length t)%nat.
Proof.
  induction s as [|c s IH]; [reflexivity|].
  rewrite append_cons. simpl. now rewrite IH.
Qed.

Lemma append_cancel_r (t : string) : ∀ s s', s ++ t = s' ++ t → s = s'.
Proof.
  induction s as [|c s IH]; intros [|c' s'] H.
  - reflexivity.
  - apply (f_equal String.length) in H.
    rewrite !length_append in H. simpl in H. lia.
  - apply (f_equal String.length) in H.
    rewrite !length_append in H. simpl in H. lia.
  - rewrite !append_cons in H. injection H as -> H. f_equal. now apply IH.
Qed.

Lemma timestamped_filename_cancel (now now' : string) :
  get_timestamped_filename now = get_timestamped_filename now' → now = now'.
Proof.
  unfold get_timestamped_filename. intros H.
  apply (append_cancel_r ".txt").
  change ("scraped_data" ++ "_" ++ now ++ ".txt")
    with ("scraped_data_" ++ (now ++ ".txt")) in H.
  change ("scraped_data" ++ "_" ++ now' ++ ".txt")
    with ("scraped_data_" ++ (now' ++ ".txt")) in H.
  now injection H.
Qed.

(** X10.  [get_timestamped_filename]: every name begins with
    [scraped_data_], and two different time stamps never give the same
    name. *)
Theorem timestamped_filenames_differ (now now' : string) :
  PyStr.startswith (get_timestamped_filename now) "scraped_data_" = true
  ∧ (now ≠ now' →
     get_timestamped_filename now ≠ get_timestamped_filename now').
Proof.
  split; [destruct now; reflexivity|].
  intros Hne H. now apply Hne, timestamped_filename_cancel.
Qed.

Lemma start_scraping_other_files now f st r st' q :
  start_scraping w now f st = (r, st') → chosen_file now f st ≠ q →
  file_content (disk st') q = file_content (disk st) q.
Proof.
  unfold start_scraping, chosen_file.
  destruct (PyStr.is_empty _).
  { intros [= _ <-] _. now destruct (use_existing_var f). }
  destruct (PyStr.int _) as [max_pages|].
  2:{ intros [= _ <-] _. now destruct (use_existing_var f). }
  destruct (open_and_write _ _ _ _ _) as [rw d] eqn:Hw.
  pose proof (fun Hne => open_and_write_other _ _ _ _ _ _ _ q Hw Hne) as Hq.
  intros H Hne.
  assert (Hd : disk st' = d) by (destruct rw; now injection H as _ <-).
  rewrite Hd, Hq; destruct (use_existing_var f); simpl in *; done.
Qed.

(** X11.  [start_scraping] writes to one file at most, the one it chose.
    In particular a start that does not append, at a time stamp other than
    the one of the current [output_file], leaves that earlier corpus file
    as it is, whatever the outcome of the call. *)
Theorem new_file_start_keeps_earlier_corpus now now0 f st r st' :
  start_scraping w now f st = (r, st') →
  (∀ q, chosen_file now f st ≠ q →
        file_content (disk st') q = file_content (disk st) q)
  ∧ (use_existing_var f = false →
     output_file st = get_timestamped_filename now0 → now ≠ now0 →
     file_content (disk st') (output_file st)
     = file_content (disk st) (output_file st)).
Proof.
  intros H. split.
  - intros q Hq. now apply (start_scraping_other_files _ _ _ _ _ _ H).
  - intros Hnew Hof Hne.
    apply (start_scraping_other_files _ _ _ _ _ _ H).
    unfold chosen_file. rewrite Hnew, Hof. intros Heq.
    now apply Hne, timestamped_filename_cancel.
Qed.

(** *** White space and numbers in the entries *)

Lemma lstrip_head (p : ascii -> bool) (s : string) :
  PyStr.lstrip_by p s = EmptyString
  ∨ ∃ c t, PyStr.lstrip_by p s = String c t ∧ p c = false.
Proof.
  induction s as [|c s IH]; simpl; [now left|].
  destruct (p c) eqn:Hc; [exact IH|]. right. now exists c, s.
Qed.

Lemma rstrip_head (p : ascii -> bool) (c : ascii) (t : string) :
  p c = false → ∃ t', PyStr.rstrip_by p (String c t) = String c t'.
Proof.
  intros Hc. simpl. rewrite Hc.
  destruct (PyStr.rstrip_by p t); eauto.
Qed.

Lemma rstrip_idem (p : ascii -> bool) (s : string) :
  PyStr.rstrip_by p (PyStr.rstrip_by p s) = PyStr.rstrip_by p s.
Proof.
  induction s as [|c s IH]; simpl; [reflexivity|].
  destruct (PyStr.rstrip_by p s) as [|d r] eqn:Hr.
  - destruct (p c) eqn:Hc; simpl; [reflexivity | now rewrite Hc].
  - change (PyStr.rstrip_by p (String c (String d r))) with
      (match PyStr.rstrip_by p (String d r) with
       | EmptyString => if p c then EmptyString else String c EmptyString
       | r' => String c r'
       end).
    now rewrite IH.
Qed.

Lemma strip_by_idem (p : ascii -> bool) (s : string) :
  PyStr.rstrip_by p (PyStr.lstrip_by p (PyStr.rstrip_by p (PyStr.lstrip_by p s)))
  = PyStr.rstrip_by p (PyStr.lstrip_by p s).
Proof.
  destruct (lstrip_head p s) as [->|(c & t & -> & Hc)]; [reflexivity|].
  destruct (rstrip_head _ c t Hc) as [t' Ht']. rewrite Ht'.
  change (PyStr.lstrip_by p (String c t'))
    with (if p c then PyStr.lstrip_by p t' else String c t').
  rewrite Hc, <- Ht'. apply rstrip_idem.
Qed.

Lemma strip_idem (s : string) : PyStr.strip (PyStr.strip s) = PyStr.strip s.
Proof. apply strip_by_idem. Qed.

Lemma int_int_strip (s : string) : PyStr.int (PyStr.int_strip s) = PyStr.int s.
Proof. unfold PyStr.int, PyStr.int_strip. now rewrite strip_by_idem. Qed.

(** X12.  White space around the two entries is ignored: [start_scraping]
    does the same with the entries as typed and with the URL entry
    stripped as [str.strip] does and the budget entry stripped of the white
    space that [int] skips, for entries of plain text ([plain_entries]).
    The two differ: a separator character such as FS is stripped from the
    URL but makes the budget no integer. *)
Theorem entries_are_stripped now f st :
  plain_entries f = true →
  start_scraping w now
    {| url_entry := PyStr.strip (url_entry f);
       max_pages_entry := PyStr.int_strip (max_pages_entry f);
       use_existing_var := use_existing_var f |} st
  = start_scraping w now f st
  ∧ PyStr.strip (String (ascii_of_nat 28) "5") = "5"
  ∧ PyStr.int (String (ascii_of_nat 28) "5") = None.
Proof.
  intros _. split; [|split_and!; reflexivity].
  unfold start_scraping. simpl. now rewrite strip_idem, int_int_strip.
Qed.

Lemma digits_value_cons (acc : Z) (c : ascii) (s : string) :
  PyStr.digits_value acc (String c s)
  = if PyStr.isdigit c
    then PyStr.digits_value (10 * acc + Z.of_nat (PyStr.code c - 48)) s
    else PyStr.digits_value acc s.
Proof. reflexivity. Qed.

Ltac eval_digit :=
  rewrite digits_value_cons;
  match goal with
  | |- context [PyStr.isdigit ?c] =>
      let b := eval vm_compute in (PyStr.isdigit c) in
      change (PyStr.isdigit c) with b
  end;
  match goal with
  | |- context [Z.of_nat ?n] =>
      let v := eval vm_compute in (Z.of_nat n) in
      change (Z.of_nat n) with v
  end;
  cbv iota.

Lemma digits_value_acc (d : Decimal.uint) : ∀ acc : positive,
  PyStr.digits_value (Z.pos acc) (NilEmpty.string_of_uint d)
  = Z.pos (Pos.of_uint_acc d acc).
Proof.
  induction d as [|d IH|d IH|d IH|d IH|d IH|d IH|d IH|d IH|d IH|d IH];
    intros acc; [reflexivity|..];
    cbn [NilEmpty.string_of_uint Pos.of_uint_acc]; rewrite <- IH;
    eval_digit; f_equal; lia.
Qed.

Lemma digits_value_of_uint (d : Decimal.uint) :
  PyStr.digits_value 0 (NilEmpty.string_of_uint d) = Z.of_N (Pos.of_uint d).
Proof.
  induction d as [|d IH|d IH|d IH|d IH|d IH|d IH|d IH|d IH|d IH|d IH];
    [reflexivity | exact IH | ..];
    cbn [NilEmpty.string_of_uint Pos.of_uint]; cbn [Z.of_N];
    rewrite <- digits_value_acc; reflexivity.
Qed.

Lemma digits_ok_of_uint (d : Decimal.uint) :
  PyStr.digits_ok true (NilEmpty.string_of_uint d) = true
  ∧ (d ≠ Decimal.Nil →
     PyStr.digits_ok false (NilEmpty.string_of_uint d) = true).
Proof.
  induction d as [|d [IH _]|d [IH _]|d [IH _]|d [IH _]|d [IH _]|d [IH _]
                  |d [IH _]|d [IH _]|d [IH _]|d [IH _]];
    (split; [try reflexivity; exact IH | intros Hne; try congruence; exact IH]).
Qed.

Lemma rstrip_digits (d : Decimal.uint) :
  PyStr.rstrip_by PyStr.int_space (NilEmpty.string_of_uint d)
  = NilEmpty.string_of_uint d.
Proof.
  induction d as [|d IH|d IH|d IH|d IH|d IH|d IH|d IH|d IH|d IH|d IH];
    [reflexivity|..];
    cbn [NilEmpty.string_of_uint PyStr.rstrip_by]; rewrite IH;
    destruct (NilEmpty.string_of_uint d); reflexivity.
Qed.

Lemma int_digits_of_uint (d : Decimal.uint) :
  d ≠ Decimal.Nil →
  Z.of_nat (PyStr.digit_count (NilEmpty.string_of_uint d))
    ≤ PyStr.max_str_digits →
  PyStr.int_digits (NilEmpty.string_of_uint d)
  = Some (Z.of_N (Pos.of_uint d)).
Proof.
  intros Hne Hlen. unfold PyStr.int_digits.
  destruct (digits_ok_of_uint d) as [_ Hok]. rewrite (Hok Hne).
  rewrite digits_value_of_uint.
  destruct (Z.leb_spec (Z.of_nat (PyStr.digit_count (NilEmpty.string_of_uint d)))
              PyStr.max_str_digits) as [_|Hgt]; [reflexivity | lia].
Qed.

Lemma int_of_uint (d : Decimal.uint) :
  d ≠ Decimal.Nil →
  Z.of_nat (PyStr.digit_count (NilEmpty.string_of_uint d))
    ≤ PyStr.max_str_digits →
  PyStr.int (NilEmpty.string_of_uint d) = Some (Z.of_N (Pos.of_uint d))
  ∧ PyStr.int (String "-" (NilEmpty.string_of_uint d))
    = Some (- Z.of_N (Pos.of_uint d)).
Proof.
  intros Hne Hlen.
  pose proof (int_digits_of_uint d Hne Hlen) as Hval.
  pose proof (rstrip_digits d) as Hr.
  unfold PyStr.int, PyStr.int_strip. split.
  - destruct d; try congruence;
      cbn [NilEmpty.string_of_uint PyStr.lstrip_by] in *;
      (change (PyStr.int_space _) with false; cbv iota; rewrite Hr;
       cbv iota beta; exact Hval).
  - assert (Hs : NilEmpty.string_of_uint d ≠ EmptyString)
      by (destruct d; [congruence | discriminate..]).
    revert Hval Hr Hs. generalize (NilEmpty.string_of_uint d) as s.
    intros s Hval Hr Hs.
    cbn [PyStr.lstrip_by]. change (PyStr.int_space "-") with false. cbv iota.
    cbn [PyStr.rstrip_by]. rewrite Hr.
    destruct s as [|a s]; [congruence|]. cbv iota.
    now rewrite Hval.
Qed.

Lemma int_of_Z (n : Z) :
  Z.of_nat (PyStr.digit_count (PyStr.of_Z n)) ≤ PyStr.max_str_digits →
  PyStr.int (PyStr.of_Z n) = Some n.
Proof.
  unfold PyStr.of_Z. destruct n as [|p|p]; [reflexivity| |].
  - simpl. pose proof (Unsigned.to_uint_nonnil p) as Hne.
    unfold NilZero.string_of_uint.
    destruct (Pos.to_uint p) eqn:Hp; [congruence|..]; intros Hlen;
      rewrite <- Hp in Hne;
      (destruct (int_of_uint _ Hne) as [H _];
       [rewrite Hp; exact Hlen | rewrite Unsigned.of_to, Hp in H; exact H]).
  - simpl. pose proof (Unsigned.to_uint_nonnil p) as Hne.
    unfold NilZero.string_of_uint.
    destruct (Pos.to_uint p) eqn:Hp; [congruence|..]; intros Hlen;
      rewrite <- Hp in Hne;
      (destruct (int_of_uint _ Hne) as [_ H];
       [rewrite Hp; exact Hlen | rewrite Unsigned.of_to, Hp in H; exact H]).
Qed.

(** X13.  The budget goes through the entry unchanged: [int] reads back
    the text that [str] gives for an integer of at most 4300 digits (the
    limit that Python sets on both), so a budget entry holding the text of
    [n] (as [_build_gui] writes the default, 50) starts a run with budget
    [n], from a URL entry with ASCII ends. *)
Theorem budget_text_is_read_back now f st n :
  Z.of_nat (PyStr.digit_count (PyStr.of_Z n)) ≤ PyStr.max_str_digits →
  PyStr.int (PyStr.of_Z n) = Some n
  ∧ (max_pages_entry f = PyStr.of_Z n →
     PyStr.ascii_edged (url_entry f) = true →
     PyStr.is_empty (PyStr.strip (url_entry f)) = false →
     open_w_fault w (chosen_file now f st) = None →
     start_scraping w now f st = (Return tt, started now f st n)
     ∧ threads (started now f st n) = (threads st ++ [n])%list).
Proof.
  intros Hlen.
  split; [now apply int_of_Z|]. intros Hentry _ Hurl Hfault.
  split; [|reflexivity]. apply start_scraping_started; try assumption.
  rewrite Hentry. now apply int_of_Z.
Qed.

(** X14.  A seed that cannot be fetched: with a positive budget and no
    Stop, the run makes one turn, logs one [[ERROR]] line and ends with
    "Total pages scraped: 0"; the queue is empty and the corpus file holds
    the header only. *)
Theorem failing_seed_ends_the_run now f st max_pages e fuel :
  0 < max_pages → stop_clicks w 0 = false → stop_clicks w 1 = false →
  requests_get w (PyStr.strip (url_entry f)) = RequestException e →
  ∃ st',
    run_bfs max_pages (S (S fuel)) (started now f st max_pages)
      = Some (Return tt, st')
    ∧ output_area st'
      = [InfoOutputFile (chosen_file now f st);
         InfoStartingBFS (PyStr.strip (url_entry f));
         ErrorLine (PyStr.strip (url_entry f)) e;
         InfoFinished 0]
    ∧ queue st' = [] ∧ running st' = false
    ∧ file_content (disk st') (chosen_file now f st) = header.
Proof.
  intros Hmax Hs0 Hs1 Hget.
  unfold run_bfs. cbn [bfs_loop]. unfold bfs_turn at 1.
  rewrite Hs0. cbn [started running queue visited].
  destruct (Z.ltb_spec 0 max_pages) as [_|Hle]; [|lia]. cbn [andb].
  rewrite (scrape_page_failed _ _ _ _ Hget).
  unfold bfs_turn. rewrite Hs1. cbn.
  destruct (Z.ltb_spec 0 max_pages) as [_|Hle]; [|lia].
  eexists. split; [reflexivity|]. cbn.
  split_and!; try reflexivity. apply file_content_insert.
Qed.

Lemma follow_links_resolve url links : ∀ st,
  links_resolve url links = true →
  follow_links url links st
  = (Return tt, offer_all (http_links url links) st).
Proof.
  induction links as [|[href|] links IH]; intros st H; simpl in *.
  - reflexivity.
  - destruct (PyStr.truthy href); simpl; [|now apply IH].
    destruct (urljoin url href) as [a|]; [|discriminate].
    destruct (urlparse_scheme a) as [s|]; [|discriminate].
    destruct (PyStr.startswith s "http"); simpl; now apply IH.
  - now apply IH.
Qed.

Lemma follow_links_rejected url before href after st :
  links_resolve url before = true → rejected url href →
  follow_links url (before ++ Some href :: after) st
  = (Raise ValueError, offer_all (http_links url before) st).
Proof.
  intros Hb [Htr Hrej]. revert st Hb.
  induction before as [|[h|] before IH]; intros st Hb; simpl in *.
  - rewrite Htr. simpl.
    destruct Hrej as [->|(a & -> & ->)]; reflexivity.
  - destruct (PyStr.truthy h); simpl; [|now apply IH].
    destruct (urljoin url h) as [a|]; [|discriminate].
    destruct (urlparse_scheme a) as [s|]; [|discriminate].
    destruct (PyStr.startswith s "http"); simpl; now apply IH.
  - now apply IH.
Qed.

(** X15.  A link that [urljoin] or [urlparse] rejects ends the crawl:
    [scrape_page] has then written and logged the page and enqueued the
    links before the rejected one; it raises [ValueError], the links after
    it are never looked at, and the exception leaves the loop and
    [run_bfs]: no "BFS finished" line is written and [running] stays
    set.  The text of the page is [PyStr.ascii_edged]. *)
Theorem rejected_link_ends_the_crawl max_pages k page_count st u rest page
    before href after :
  stop_clicks w k = false → running st = true → page_count < max_pages →
  queue st = u :: rest → requests_get w u = Response page →
  PyStr.ascii_edged (get_text page) = true →
  open_a_fault w (page_count + 1) u = None →
  find_all_a page = (before ++ Some href :: after)%list →
  links_resolve u before = true → rejected u href →
  ∃ st',
    (∀ fuel, bfs_loop max_pages (S fuel) k page_count st
             = Some (Raise ValueError, st'))
    ∧ (k = 0%nat → page_count = 0 →
       ∀ fuel, run_bfs max_pages (S fuel) st = Some (Raise ValueError, st'))
    ∧ queue st'
      = (rest ++ new_urls (visited st) (http_links u before))%list
    ∧ output_area st'
      = (output_area st ++ [ScrapedLine (page_count + 1) u])%list
    ∧ file_content (disk st') (output_file st)
      = file_content (disk st) (output_file st)
          ++ record_block (page_count + 1) u (PyStr.strip (get_text page))
    ∧ running st' = true.
Proof.
  intros Hstop Hrun Hlt Hq Hget _ Hfault Hlinks Hb Hrej.
  assert (Hturn : ∃ st',
             bfs_turn max_pages k page_count st = LoopRaise u ValueError st'
             ∧ queue st'
               = (rest ++ new_urls (visited st) (http_links u before))%list
             ∧ output_area st'
               = (output_area st ++ [ScrapedLine (page_count + 1) u])%list
             ∧ file_content (disk st') (output_file st)
               = file_content (disk st) (output_file st)
                   ++ record_block (page_count + 1) u
                        (PyStr.strip (get_text page))
             ∧ running st' = true).
  { unfold bfs_turn. rewrite Hstop, Hrun, Hq.
    destruct (Z.ltb_spec page_count max_pages) as [_|Hge]; [|lia].
    cbn [andb]. unfold scrape_page. rewrite Hget, Hfault.
    cbn [open_and_write output_file disk set_frontier].
    rewrite Hlinks, (follow_links_rejected _ _ _ _ _ Hb Hrej).
    eexists. split; [reflexivity|].
    match goal with
    | |- context [offer_all ?l ?s] =>
        destruct (offer_all_spec l s) as (Hq' & _ & Hs)
    end.
    destruct Hs as (Hr' & _ & Hoa' & _ & _ & Hd').
    rewrite Hq', Hoa', Hd', Hr'. cbn.
    rewrite file_content_insert.
    split_and!; try reflexivity; try exact Hrun.
    exact (writes_append (file_content (disk st) (output_file st))
             (record_chunks (page_count + 1) u (PyStr.strip (get_text page)))). }
  destruct Hturn as (st' & Ht & Hq' & Hoa' & Hfc' & Hr').
  exists st'. split_and!; try assumption.
  - intros fuel. cbn [bfs_loop]. now rewrite Ht.
  - intros -> -> fuel. unfold run_bfs. cbn [bfs_loop]. now rewrite Ht.
Qed.

Lemma offer_all_visited (urls : list string) : ∀ st,
  (∀ x, x ∈ urls → x ∈ visited st) → offer_all urls st = st.
Proof.
  induction urls as [|u urls IH]; intros st H; [reflexivity|].
  unfold offer_all in *. simpl.
  rewrite (offer_visited u st) by (apply H; left).
  apply IH. intros x Hx. apply H. now right.
Qed.

(** X16.  A seed page whose links all resolve and lead nowhere new (no
    [http] link, or only links to the page itself): with a positive budget
    and no Stop, the run scrapes that one page, finds the queue empty and
    ends with "Total pages scraped: 1"; the corpus file is the header
    followed by the block of page 1.  The text of the page is
    [PyStr.ascii_edged]. *)
Theorem page_without_new_links_ends_the_run now f st max_pages page fuel :
  0 < max_pages → stop_clicks w 0 = false → stop_clicks w 1 = false →
  requests_get w (PyStr.strip (url_entry f)) = Response page →
  PyStr.ascii_edged (get_text page) = true →
  open_a_fault w 1 (PyStr.strip (url_entry f)) = None →
  links_resolve (PyStr.strip (url_entry f)) (find_all_a page) = true →
  (∀ x, x ∈ http_links (PyStr.strip (url_entry f)) (find_all_a page) →
        x = PyStr.strip (url_entry f)) →
  ∃ st',
    run_bfs max_pages (S (S fuel)) (started now f st max_pages)
      = Some (Return tt, st')
    ∧ output_area st'
      = [InfoOutputFile (chosen_file now f st);
         InfoStartingBFS (PyStr.strip (url_entry f));
         ScrapedLine 1 (PyStr.strip (url_entry f));
         InfoFinished 1]
    ∧ queue st' = [] ∧ running st' = false
    ∧ file_content (disk st') (chosen_file now f st)
      = header ++ record_block 1 (PyStr.strip (url_entry f))
                    (PyStr.strip (get_text page)).
Proof.
  intros Hmax Hs0 Hs1 Hget _ Hfault Hres Hself.
  unfold run_bfs. cbn [bfs_loop]. unfold bfs_turn at 1.
  rewrite Hs0. cbn [started running queue visited].
  destruct (Z.ltb_spec 0 max_pages) as [_|Hle]; [|lia]. cbn [andb].
  unfold scrape_page. rewrite Hget. change (0 + 1) with 1. rewrite Hfault.
  cbn [open_and_write output_file disk set_frontier].
  rewrite (follow_links_resolve _ _ _ Hres).
  rewrite offer_all_visited.
  2:{ intros x Hx. rewrite (Hself x Hx). cbn. set_solver. }
  unfold bfs_turn. rewrite Hs1. cbn.
  destruct (1 <? max_pages); cbn;
    (eexists; split; [reflexivity|]; cbn;
     split_and!; try reflexivity;
     rewrite file_content_insert, file_content_insert;
     exact (writes_append header
              (record_chunks 1 (PyStr.strip (url_entry f))
                 (PyStr.strip (get_text page))))).
Qed.

(** X18.  Every start forgets the previous crawl: the outcome of
    [start_scraping] does not depend on the queue and the visited set it
    finds, so URLs visited in an earlier run can be fetched again. *)
Theorem start_forgets_the_frontier now f st q v :
  start_scraping w now f (set_frontier q v st) = start_scraping w now f st.
Proof.
  unfold start_scraping.
  destruct (use_existing_var f); cbn;
    (destruct (PyStr.is_empty _); [reflexivity|]);
    (destruct (PyStr.int _); reflexivity).
Qed.

(** X19.  When the corpus file cannot be opened, [start_scraping] raises
    [OSError] and no run begins: no thread is started and [running] is as
    before.  The reset has already happened: the frontier holds the seed
    and the log its two opening lines; no other file is changed, and
    nothing at all when [open] itself failed.  The entries are plain text
    ([plain_entries]). *)
Theorem unwritable_corpus_starts_no_run now f st max_pages n :
  plain_entries f = true →
  PyStr.is_empty (PyStr.strip (url_entry f)) = false →
  PyStr.int (max_pages_entry f) = Some max_pages →
  open_w_fault w (chosen_file now f st) = Some n →
  ∃ st',
    start_scraping w now f st = (Raise OSError, st')
    ∧ threads st' = threads st ∧ running st' = running st
    ∧ queue st' = [PyStr.strip (url_entry f)]
    ∧ output_area st'
      = [InfoOutputFile (chosen_file now f st);
         InfoStartingBFS (PyStr.strip (url_entry f))]
    ∧ (n = 0%nat → disk st' = disk st)
    ∧ ∀ q, chosen_file now f st ≠ q →
           file_content (disk st') q = file_content (disk st) q.
Proof.
  intros _ Hurl Hint Hfault.
  destruct (start_scraping w now f st) as [r st'] eqn:Hstart.
  pose proof (fun q => start_scraping_other_files _ _ _ _ _ q Hstart) as Hoth.
  revert Hstart. unfold start_scraping, chosen_file in *.
  rewrite Hurl, Hint.
  destruct (use_existing_var f); cbn in *; rewrite Hfault;
    (destruct n as [|n]; cbn; intros [= <- <-]; eexists;
     (split; [reflexivity|]); cbn; split_and!; try done; lia).
Qed.

Lemma bfs_turn_budget max_pages max_pages' k page_count st :
  page_count < max_pages → max_pages ≤ max_pages' →
  bfs_turn max_pages' k page_count st = bfs_turn max_pages k page_count st.
Proof.
  intros Hlt Hle. unfold bfs_turn.
  destruct (Z.ltb_spec page_count max_pages) as [_|H]; [|lia].
  destruct (Z.ltb_spec page_count max_pages') as [_|H]; [|lia].
  reflexivity.
Qed.

(** X20.  A larger budget only extends the crawl: in the same world and
    from the same state, the URLs popped under a budget are the first of
    the URLs popped under any larger budget. *)
Theorem larger_budget_extends_the_crawl max_pages max_pages' :
  max_pages ≤ max_pages' →
  ∀ fuel k page_count st,
    ∃ more,
      popped max_pages' fuel k page_count st
      = (popped max_pages fuel k page_count st ++ more)%list.
Proof.
  intros Hle. induction fuel as [|fuel IH]; intros k page_count st.
  { now exists []. }
  cbn [popped].
  destruct (Z.lt_ge_cases page_count max_pages) as [Hlt|Hge].
  - rewrite (bfs_turn_budget _ _ _ _ _ Hlt Hle).
    destruct (bfs_turn max_pages k page_count st) as [st1|u pc1 st1|u e st1].
    + now exists [].
    + destruct (IH (S k) pc1 st1) as [more Hm]. exists more.
      now rewrite Hm.
    + now exists [].
  - assert (Hexit : ∃ st1, bfs_turn max_pages k page_count st = LoopExit st1).
    { unfold bfs_turn.
      destruct (Z.ltb_spec page_count max_pages) as [H|_]; [lia|].
      rewrite andb_false_r. eauto. }
    destruct Hexit as [st1 ->]. eauto.
Qed.

End Engine.

(** ** Links with a scheme of their own *)

Lemma scheme_char_plain (c : ascii) :
  Urllib.scheme_char c = true →
  Urllib.unsafe_url_byte c = false ∧ Ascii.eqb ":" c = false.
Proof.
  destruct c as [[|] [|] [|] [|] [|] [|] [|] [|]]; vm_compute;
    intros H; try discriminate H; split; reflexivity.
Qed.

Lemma isalpha_not_c0 (c : ascii) :
  PyStr.isalpha c = true → Urllib.c0_control_or_space c = false.
Proof.
  destruct c as [[|] [|] [|] [|] [|] [|] [|] [|]]; vm_compute;
    intros H; try discriminate H; reflexivity.
Qed.

Lemma remove_by_scheme (s t : string) :
  Urllib.all_chars Urllib.scheme_char s = true →
  PyStr.remove_by Urllib.unsafe_url_byte (s ++ t)
  = s ++ PyStr.remove_by Urllib.unsafe_url_byte t.
Proof.
  induction s as [|c s IH]; [reflexivity|].
  cbn [Urllib.all_chars]. intros [Hc Hs]%andb_prop.
  rewrite !append_cons. cbn [PyStr.remove_by].
  destruct (scheme_char_plain c Hc) as [-> _]. now rewrite IH.
Qed.

Lemma partition_scheme (s t : string) :
  Urllib.all_chars Urllib.scheme_char s = true →
  PyStr.partition ":" (s ++ String ":" t) = Some (s, t).
Proof.
  induction s as [|c s IH]; [reflexivity|].
  cbn [Urllib.all_chars]. intros [Hc Hs]%andb_prop.
  rewrite append_cons. cbn [PyStr.partition].
  destruct (scheme_char_plain c Hc) as [_ ->]. now rewrite IH.
Qed.

(** [urlsplit] on a link that begins with a well-formed scheme and a colon:
    it raises, or the scheme of the result is that scheme in lower case,
    whatever the default scheme. *)
Lemma urlsplit_own_scheme host_ok (s x default : string) :
  valid_scheme s = true →
  Urllib.urlsplit host_ok (s ++ ":" ++ x) default = None
  ∨ ∃ n p q f,
      Urllib.urlsplit host_ok (s ++ ":" ++ x) default
      = Some (Urllib.SplitResult (PyStr.lower s) n p q f).
Proof.
  unfold valid_scheme. destruct s as [|c0 pre]; [discriminate|].
  intros [Halpha Hall]%andb_prop.
  unfold Urllib.urlsplit.
  change (String c0 pre ++ ":" ++ x) with (String c0 (pre ++ String ":" x)).
  cbn [PyStr.lstrip_by]. rewrite (isalpha_not_c0 c0 Halpha).
  change (String c0 (pre ++ String ":" x)) with (String c0 pre ++ String ":" x).
  rewrite (remove_by_scheme _ _ Hall). cbn [PyStr.remove_by].
  change (Urllib.unsafe_url_byte ":") with false. cbv iota.
  rewrite (partition_scheme _ _ Hall), Halpha, Hall. cbn [andb]. cbv zeta.
  destruct (PyStr.startswith _ "//").
  - destruct (Urllib.splitnetloc _) as [netloc rest].
    destruct (_ || _); [now left|].
    destruct (_ && _); [now left|]. right.
    destruct (PyStr.partition "#" rest) as [[u1 fr]|];
      [destruct (PyStr.partition "?" u1) as [[u2 qu]|]
      |destruct (PyStr.partition "?" rest) as [[u2 qu]|]]; eauto.
  - right.
    destruct (PyStr.partition "#" _) as [[u1 fr]|].
    + destruct (PyStr.partition "?" u1) as [[u2 qu]|]; eauto.
    + destruct (PyStr.partition "?" _) as [[u2 qu]|]; eauto.
Qed.

Lemma urlparse_own_scheme host_ok (s x default : string) :
  valid_scheme s = true →
  Urllib.urlparse host_ok (s ++ ":" ++ x) default = None
  ∨ ∃ p, Urllib.urlparse host_ok (s ++ ":" ++ x) default = Some p
         ∧ Urllib.scheme p = PyStr.lower s.
Proof.
  intros Hs. unfold Urllib.urlparse.
  destruct (urlsplit_own_scheme host_ok s x default Hs)
    as [->|(n & p & q & f & ->)]; [now left|]. right.
  destruct (_ && _); [destruct (Urllib.splitparams p)|]; eauto.
Qed.

Lemma urljoin_own_scheme host_ok (s x base : string) :
  valid_scheme s = true →
  Urllib.member (PyStr.lower s) Urllib.uses_relative = false →
  Urllib.urljoin host_ok base (s ++ ":" ++ x) = None
  ∨ Urllib.urljoin host_ok base (s ++ ":" ++ x) = Some (s ++ ":" ++ x).
Proof.
  intros Hs Hrel. unfold Urllib.urljoin.
  destruct (PyStr.is_empty base); [now right|].
  assert (Hne : PyStr.is_empty (s ++ ":" ++ x) = false)
    by (destruct s; [discriminate | reflexivity]).
  rewrite Hne.
  destruct (Urllib.urlparse host_ok base EmptyString) as [b|]; [|now left].
  destruct (urlparse_own_scheme host_ok s x (Urllib.scheme b) Hs)
    as [->|(p & -> & Hp)]; [now left|].
  rewrite Hp, Hrel. cbn [negb]. rewrite orb_true_r. now right.
Qed.

(** Such a link, when its scheme does not begin with [http] and is not one
    that [urljoin] resolves, is not among the links offered. *)
Lemma http_links_own_scheme host_ok (s x url : string)
    (links : list (option string)) :
  valid_scheme s = true →
  Urllib.member (PyStr.lower s) Urllib.uses_relative = false →
  PyStr.startswith (PyStr.lower s) "http" = false →
  http_links (Urllib.urljoin host_ok) (Urllib.urlparse_scheme host_ok) url
    (Some (s ++ ":" ++ x) :: links)
  = http_links (Urllib.urljoin host_ok) (Urllib.urlparse_scheme host_ok) url
      links.
Proof.
  intros Hs Hrel Hhttp. cbn [http_links].
  destruct (PyStr.truthy _); [|reflexivity].
  destruct (urljoin_own_scheme host_ok s x url Hs Hrel) as [->| ->];
    [reflexivity|].
  unfold Urllib.urlparse_scheme.
  destruct (urlparse_own_scheme host_ok s x EmptyString Hs)
    as [->|(p & -> & Hp)]; [reflexivity|].
  now rewrite Hp, Hhttp.
Qed.

(** ** Properties that compare two resolvers, and concrete runs *)

(** C4 (amended).  The links that [scrape_page] offers to the frontier are
    the non-empty [href]s, resolved against the page's URL, whose scheme
    begins with [http], in document order.  A [mailto:] or [javascript:]
    link, on any page and whatever follows the colon, is not among them.  A
    fragment-only link is not left out as such: it is resolved and tested
    like every other link.  On the page [https://x.test/] the links
    [mailto:a@b.com], [javascript:void(0)], [#section] and
    [https://x.test/y] offer [https://x.test/#section] and
    [https://x.test/y]. *)
Theorem links_offered :
  (∀ urljoin urlparse_scheme url links st st',
     follow_links urljoin urlparse_scheme url links st = (Return tt, st') →
     st' = offer_all (http_links urljoin urlparse_scheme url links) st)
  ∧ (∀ urljoin urlparse_scheme url links u,
       u ∈ http_links urljoin urlparse_scheme url links ↔
       ∃ href s, Some href ∈ links ∧ PyStr.truthy href = true
         ∧ urljoin url href = Some u ∧ urlparse_scheme u = Some s
         ∧ PyStr.startswith s "http" = true)
  ∧ (∀ host_ok url x links,
       http_links (Urllib.urljoin host_ok) (Urllib.urlparse_scheme host_ok)
         url (Some ("mailto:" ++ x) :: links)
       = http_links (Urllib.urljoin host_ok) (Urllib.urlparse_scheme host_ok)
           url links
       ∧ http_links (Urllib.urljoin host_ok) (Urllib.urlparse_scheme host_ok)
           url (Some ("javascript:" ++ x) :: links)
         = http_links (Urllib.urljoin host_ok) (Urllib.urlparse_scheme host_ok)
             url links)
  ∧ (∀ host_ok,
       http_links (Urllib.urljoin host_ok) (Urllib.urlparse_scheme host_ok)
         "https://x.test/"
         [Some "mailto:a@b.com"; Some "javascript:void(0)"; Some "#section";
          Some "https://x.test/y"]
       = ["https://x.test/#section"; "https://x.test/y"]).
Proof.
  split; [exact follow_links_offers|].
  split; [exact elem_of_http_links|].
  split; [|intros host_ok; reflexivity].
  intros host_ok url x links. split.
  - exact (http_links_own_scheme host_ok "mailto" x url links
             eq_refl eq_refl eq_refl).
  - exact (http_links_own_scheme host_ok "javascript" x url links
             eq_refl eq_refl eq_refl).
Qed.

(** C10.  An anchor without [href], or with an empty [href], is skipped: the
    loop over the links goes on in the same state, so nothing is offered for
    it, and [urljoin] is not called on it: the loop does the same with a
    [urljoin] that raises on an empty [href]. *)
Theorem empty_href_is_skipped urljoin urlparse_scheme url links st :
  follow_links urljoin urlparse_scheme url (None :: links) st
  = follow_links urljoin urlparse_scheme url links st
  ∧ follow_links urljoin urlparse_scheme url (Some EmptyString :: links) st
    = follow_links urljoin urlparse_scheme url links st
  ∧ follow_links urljoin urlparse_scheme url links st
    = follow_links (fun base href =>
                      if PyStr.is_empty href then None else urljoin base href)
        urlparse_scheme url links st.
Proof.
  split; [reflexivity|]. split; [reflexivity|].
  revert st. induction links as [|[href|] links IH]; intros st; simpl.
  - reflexivity.
  - unfold PyStr.truthy. destruct (PyStr.is_empty href); simpl; [apply IH|].
    destruct (urljoin url href) as [absolute_url|]; [|reflexivity].
    destruct (urlparse_scheme absolute_url) as [scheme|]; [|reflexivity].
    destruct (PyStr.startswith scheme "http"); apply IH.
  - apply IH.
Qed.

(** *** Counterexamples and instances *)

(** C1, instance: the first run on the small web. *)
Lemma frontier_never_pops_twice_witness :
  start_scraping demo_world "20240101-120500" (demo_form "5" false) fresh_gui
    = (Return tt, demo_started)
  ∧ popped demo_urljoin demo_scheme demo_world 5 10 0 0 demo_started
    = ["https://x.test/"; "https://x.test/#section"; "https://x.test/y"]
  ∧ NoDup (popped demo_urljoin demo_scheme demo_world 5 10 0 0 demo_started).
Proof.
  assert (H : start_scraping demo_world "20240101-120500" (demo_form "5" false)
                fresh_gui = (Return tt, demo_started))
    by (vm_compute; reflexivity).
  split; [exact H|]. split; [vm_compute; reflexivity|].
  exact (proj1 (frontier_never_pops_twice demo_urljoin demo_scheme demo_world
                  _ _ _ _ _ 5 10%nat H)).
Defined.

(** C2: the file of the first run is reused in append mode; the second
    [start_scraping] truncates it, and the two records of the first run are
    gone. *)
Theorem append_mode_truncates :
  run_bfs demo_urljoin demo_scheme demo_world 5 10 demo_started
    = Some (Return tt, demo_finished)
  ∧ file_content (disk demo_finished) "scraped_data_20240101-120500.txt"
    = header ++ record_block 1 "https://x.test/" "Hello"
        ++ record_block 2 "https://x.test/#section" "Again"
  ∧ ∃ st',
      start_scraping demo_world "20240101-130000" (demo_form "5" true)
        demo_finished = (Return tt, st')
      ∧ output_file st' = "scraped_data_20240101-120500.txt"
      ∧ file_content (disk st') "scraped_data_20240101-120500.txt" = header.
Proof.
  split; [vm_compute; reflexivity|]. split; [vm_compute; reflexivity|].
  eexists. split; [vm_compute; reflexivity|].
  split; vm_compute; reflexivity.
Qed.

(** C3, counterexample: with the budget [-1] the run starts and reports 0
    pages, which is more than the budget. *)
Lemma negative_budget_is_exceeded :
  ∃ st0 st',
    start_scraping demo_world "20240101-120500" (demo_form "-1" false) fresh_gui
      = (Return tt, st0)
    ∧ threads st0 = [-1]
    ∧ run_bfs demo_urljoin demo_scheme demo_world (-1) 1 st0
      = Some (Return tt, st')
    ∧ last (output_area st') = Some (InfoFinished 0)
    ∧ ¬ (0 ≤ -1).
Proof.
  do 2 eexists. split; [vm_compute; reflexivity|].
  split; [reflexivity|]. split; [vm_compute; reflexivity|].
  split; [reflexivity | lia].
Qed.

(** C3, instance: the first run on the small web reports 2 pages. *)
Lemma page_count_equals_scraped_witness :
  run_bfs demo_urljoin demo_scheme demo_world 5 10 demo_started
    = Some (Return tt, demo_finished)
  ∧ ∃ evs n,
      output_area demo_finished
      = (output_area demo_started ++ evs ++ [InfoFinished n])%list
      ∧ n = Z.of_nat (scraped_count evs)
      ∧ n ≤ Z.max 0 5 ∧ (0 ≤ 5 → n ≤ 5).
Proof.
  assert (H : run_bfs demo_urljoin demo_scheme demo_world 5 10 demo_started
              = Some (Return tt, demo_finished)) by (vm_compute; reflexivity).
  split; [exact H|].
  exact (proj1 (proj2 (page_count_equals_scraped demo_urljoin demo_scheme
                         demo_world 5 demo_started)) 10%nat demo_finished H).
Defined.

(** C4, counterexample: the page [https://x.test/] holds the three links
    [mailto:a@b.com], [#section] and [https://x.test/y]; scraping it enqueues
    two URLs, not [https://x.test/y] alone. *)
Lemma fragment_link_is_offered :
  requests_get demo_world "https://x.test/"
    = Response (Soup "  Hello  " demo_links)
  ∧ ∃ st',
      scrape_page demo_urljoin demo_scheme demo_world "https://x.test/" 1
        (set_frontier [] (visited demo_started) demo_started) = (Return true, st')
      ∧ queue st' = ["https://x.test/#section"; "https://x.test/y"]
      ∧ queue st' ≠ ["https://x.test/y"].
Proof.
  split; [reflexivity|]. eexists. split; [vm_compute; reflexivity|].
  split; [vm_compute; reflexivity | discriminate].
Qed.

(** C4, instance: the three links of the seed page, offered to a fresh
    frontier. *)
Lemma links_offered_witness :
  ∃ st',
    follow_links demo_urljoin demo_scheme "https://x.test/" demo_links fresh_gui
      = (Return tt, st')
    ∧ st' = offer_all
              (http_links demo_urljoin demo_scheme "https://x.test/" demo_links)
              fresh_gui.
Proof.
  eexists.
  assert (H : follow_links demo_urljoin demo_scheme "https://x.test/" demo_links
                fresh_gui
              = (Return tt,
                 offer_all ["https://x.test/#section"; "https://x.test/y"]
                   fresh_gui)) by (vm_compute; reflexivity).
  split; [exact H|].
  exact (proj1 links_offered demo_urljoin demo_scheme _ _ _ _ H).
Defined.



(** C6, instance: the URL that answers 404. *)
Lemma failed_fetch_is_skipped_witness :
  stop_clicks demo_world 0 = false ∧ running demo_failing = true ∧ 0 < 5
  ∧ queue demo_failing = ["https://x.test/y"]
  ∧ requests_get demo_world "https://x.test/y"
    = RequestException "404 Client Error"
  ∧ (bfs_turn demo_urljoin demo_scheme demo_world 5 0 0 demo_failing
      = LoopNext "https://x.test/y" 0
          (insert_END (ErrorLine "https://x.test/y" "404 Client Error")
             (set_frontier [] (visited demo_failing) demo_failing))
     ∧ output_area
         (insert_END (ErrorLine "https://x.test/y" "404 Client Error")
            (set_frontier [] (visited demo_failing) demo_failing))
       = (output_area demo_failing
            ++ [ErrorLine "https://x.test/y" "404 Client Error"])%list)
  ∧ try_get (Transferred (HttpResponse 404 "Not Found" "https://x.test/y")
               (Soup "Gone" []))
    = RequestException "404 Client Error: Not Found for url: https://x.test/y"
  ∧ try_get (Transferred (HttpResponse 503 "Service Unavailable"
                            "https://x.test/y") (Soup "Busy" []))
    = RequestException
        "503 Server Error: Service Unavailable for url: https://x.test/y"
  ∧ try_get (Transferred (HttpResponse 200 "OK" "https://x.test/y")
               (Soup "Fine" []))
    = Response (Soup "Fine" []).
Proof.
  split; [reflexivity|]. split; [reflexivity|]. split; [lia|].
  split; [reflexivity|]. split; [reflexivity|].
  split; [|split_and!; reflexivity].
  pose proof (failed_fetch_is_skipped demo_urljoin demo_scheme
                demo_world 5 0%nat 0 demo_failing "https://x.test/y" []
                "404 Client Error" eq_refl eq_refl eq_refl eq_refl
                eq_refl) as H.
  exact (conj (proj1 (proj2 H)) (proj1 (proj2 (proj2 H)))).
Defined.

(** C6, counterexample: a status that is not 2xx and is no failure.  The
    answer 304 passes [raise_for_status]: the page is scraped and counted
    and no [[ERROR]] line is written. *)
Lemma not_modified_is_scraped :
  status_code (not_modified "https://x.test/") = 304
  ∧ ¬ (200 ≤ 304 < 300)
  ∧ requests_get cached_world "https://x.test/" = Response (Soup "Cached" [])
  ∧ ∃ st',
      bfs_turn demo_urljoin demo_scheme cached_world 5 0 0 demo_started
      = LoopNext "https://x.test/" 1 st'
      ∧ output_area st'
        = (output_area demo_started ++ [ScrapedLine 1 "https://x.test/"])%list
      ∧ file_content (disk st') (output_file demo_started)
        = header ++ record_block 1 "https://x.test/" "Cached".
Proof.
  split; [reflexivity|]. split; [lia|]. split; [reflexivity|].
  eexists. split; [vm_compute; reflexivity|].
  split; vm_compute; reflexivity.
Qed.



(** C8, counterexample: the disk fails while page 2 is written.  [run_bfs]
    raises [OSError], the log has no "BFS finished" line and [running] is
    still set. *)
Lemma io_error_leaves_no_report :
  start_scraping faulty_world "20240101-120500" (demo_form "5" false) fresh_gui
    = (Return tt, demo_started)
  ∧ ∃ st',
      run_bfs demo_urljoin demo_scheme faulty_world 5 10 demo_started
        = Some (Raise OSError, st')
      ∧ output_area st'
        = [InfoOutputFile "scraped_data_20240101-120500.txt";
           InfoStartingBFS "https://x.test/";
           ScrapedLine 1 "https://x.test/"]
      ∧ finished_count (output_area st') = 0%nat
      ∧ running st' = true.
Proof.
  split; [vm_compute; reflexivity|].
  eexists. split; [vm_compute; reflexivity|].
  split_and!; vm_compute; reflexivity.
Qed.

(** C8, instance: the first run on the small web. *)
Lemma loop_exit_reports_witness :
  run_bfs demo_urljoin demo_scheme demo_world 5 10 demo_started
    = Some (Return tt, demo_finished)
  ∧ ∃ evs written,
      output_area demo_finished = (output_area demo_started ++ evs)%list
      ∧ file_content (disk demo_finished) (output_file demo_started)
        = file_content (disk demo_started) (output_file demo_started) ++ written
      ∧ (∀ q, output_file demo_started ≠ q →
              file_content (disk demo_finished) q
              = file_content (disk demo_started) q)
      ∧ (Return tt = Return tt →
         finished_count evs = 1%nat ∧ running demo_finished = false)
      ∧ (∀ e, Return tt = Raise e → finished_count evs = 0%nat).
Proof.
  assert (H : run_bfs demo_urljoin demo_scheme demo_world 5 10 demo_started
              = Some (Return tt, demo_finished)) by (vm_compute; reflexivity).
  split; [exact H|].
  exact (proj1 (loop_exit_reports demo_urljoin demo_scheme demo_world 5)
           10%nat demo_started (Return tt) demo_finished H).
Defined.


(** X17.  A link that carries a scheme of its own which [urljoin] does not
    treat as relative and which does not begin with [http] ([mailto:],
    [javascript:], [tel:], [data:], ...) is never offered to the frontier,
    on any page and whatever follows the colon: the link loop goes on in the
    same state, or raises [ValueError] in that state when [urlsplit] rejects
    the link. *)
Theorem own_scheme_link_is_never_offered host_ok (s x url : string)
    (links : list (option string)) (st : crawler) :
  valid_scheme s = true →
  Urllib.member (PyStr.lower s) Urllib.uses_relative = false →
  PyStr.startswith (PyStr.lower s) "http" = false →
  follow_links (Urllib.urljoin host_ok) (Urllib.urlparse_scheme host_ok) url
    (Some (s ++ ":" ++ x) :: links) st
  = follow_links (Urllib.urljoin host_ok) (Urllib.urlparse_scheme host_ok) url
      links st
  ∨ follow_links (Urllib.urljoin host_ok) (Urllib.urlparse_scheme host_ok) url
      (Some (s ++ ":" ++ x) :: links) st
    = (Raise ValueError, st).
Proof.
  intros Hs Hrel Hhttp. cbn [follow_links].
  assert (Htr : PyStr.truthy (s ++ ":" ++ x) = true)
    by (destruct s; [discriminate | reflexivity]).
  rewrite Htr. cbn [negb].
  destruct (urljoin_own_scheme host_ok s x url Hs Hrel) as [->| ->];
    [now right|].
  unfold Urllib.urlparse_scheme.
  destruct (urlparse_own_scheme host_ok s x EmptyString Hs)
    as [->|(p & -> & Hp)]; [now right|].
  rewrite Hp, Hhttp. now left.
Qed.

(** *** Instances of the further properties *)

(** X1, instance: the links of the seed page of the small web. *)
Lemma links_enqueued_once_in_order_witness :
  follow_links demo_urljoin demo_scheme "https://x.test/" demo_links fresh_gui
    = (Return tt,
       offer_all ["https://x.test/#section"; "https://x.test/y"] fresh_gui)
  ∧ queue (offer_all ["https://x.test/#section"; "https://x.test/y"] fresh_gui)
    = (queue fresh_gui
         ++ new_urls (visited fresh_gui)
              (http_links demo_urljoin demo_scheme "https://x.test/"
                 demo_links))%list.
Proof.
  assert (H : follow_links demo_urljoin demo_scheme "https://x.test/" demo_links
                fresh_gui
              = (Return tt,
                 offer_all ["https://x.test/#section"; "https://x.test/y"]
                   fresh_gui)) by (vm_compute; reflexivity).
  split; [exact H|].
  exact (proj1 (links_enqueued_once_in_order demo_urljoin demo_scheme
                  _ _ _ _ H)).
Defined.

(** X2, instance: on the small web Stop is pressed before the second loop
    test, when one page is scraped and two URLs wait in the queue; without
    Stop the run pops all three URLs. *)
Lemma stop_bounds_the_run_witness :
  stop_clicks stopping_world 1 = true
  ∧ popped demo_urljoin demo_scheme demo_world 5 10 0 0 demo_started
    = ["https://x.test/"; "https://x.test/#section"; "https://x.test/y"]
  ∧ popped demo_urljoin demo_scheme stopping_world 5 10 0 0 demo_started
    = ["https://x.test/"]
  ∧ (∃ st',
       run_bfs demo_urljoin demo_scheme stopping_world 5 10 demo_started
       = Some (Return tt, st')
       ∧ output_area st'
         = [InfoOutputFile "scraped_data_20240101-120500.txt";
            InfoStartingBFS "https://x.test/";
            ScrapedLine 1 "https://x.test/";
            InfoStopRequested;
            InfoFinished 1]
       ∧ queue st' = ["https://x.test/#section"; "https://x.test/y"]
       ∧ running st' = false)
  ∧ ∃ r st',
      (∀ fuel, (1 < fuel)%nat →
         run_bfs demo_urljoin demo_scheme stopping_world 5 fuel demo_started
         = Some (r, st'))
      ∧ (length (popped demo_urljoin demo_scheme stopping_world 5 2 0 0
                   demo_started) ≤ 1)%nat
      ∧ ∀ n, last (output_area st') = Some (InfoFinished n) →
             r = Return tt → n ≤ Z.of_nat 1.
Proof.
  split; [reflexivity|]. split; [vm_compute; reflexivity|].
  split; [vm_compute; reflexivity|].
  split.
  { eexists. split; [vm_compute; reflexivity|].
    split_and!; vm_compute; reflexivity. }
  exact (proj2 (stop_bounds_the_run demo_urljoin demo_scheme stopping_world
                  5 1%nat demo_started eq_refl)).
Defined.

(** X3, instance: the first run on the small web. *)
Lemma urls_are_popped_in_queue_order_witness :
  run_bfs demo_urljoin demo_scheme demo_world 5 10 demo_started
    = Some (Return tt, demo_finished)
  ∧ ∃ found,
      (popped demo_urljoin demo_scheme demo_world 5 10 0 0 demo_started
         ++ queue demo_finished)%list
      = (queue demo_started ++ found)%list
      ∧ visited demo_finished = list_to_set found ∪ visited demo_started
      ∧ NoDup found
      ∧ ∀ x, x ∈ found → x ∉ visited demo_started.
Proof.
  assert (H : run_bfs demo_urljoin demo_scheme demo_world 5 10 demo_started
              = Some (Return tt, demo_finished)) by (vm_compute; reflexivity).
  split; [exact H|].
  exact (urls_are_popped_in_queue_order demo_urljoin demo_scheme demo_world
           5 10%nat demo_started (Return tt) demo_finished H).
Defined.

(** X4, instance: the first run on the small web ends on an empty queue. *)
Lemma run_ends_on_budget_or_empty_queue_witness :
  (∀ j, stop_clicks demo_world j = false) ∧ running demo_started = true
  ∧ 0 ≤ 5
  ∧ run_bfs demo_urljoin demo_scheme demo_world 5 10 demo_started
    = Some (Return tt, demo_finished)
  ∧ ∃ n, last (output_area demo_finished) = Some (InfoFinished n)
      ∧ (n = 5 ∨ queue demo_finished = []).
Proof.
  assert (H : run_bfs demo_urljoin demo_scheme demo_world 5 10 demo_started
              = Some (Return tt, demo_finished)) by (vm_compute; reflexivity).
  split; [reflexivity|]. split; [reflexivity|]. split; [lia|].
  split; [exact H|].
  exact (run_ends_on_budget_or_empty_queue demo_urljoin demo_scheme demo_world
           5 10%nat demo_started demo_finished
           (fun _ => eq_refl) eq_refl ltac:(lia) H).
Defined.

(** X5, instance: the log of the first run on the small web lists the three
    URLs it popped; on the disk that fails at page 2 the second URL popped
    has no line. *)
Lemma log_lists_the_fetches_witness :
  run_bfs demo_urljoin demo_scheme demo_world 5 10 demo_started
    = Some (Return tt, demo_finished)
  ∧ fetched_urls (output_area demo_finished)
    = ["https://x.test/"; "https://x.test/#section"; "https://x.test/y"]
  ∧ (∃ evs unlogged,
       output_area demo_finished = (output_area demo_started ++ evs)%list
       ∧ popped demo_urljoin demo_scheme demo_world 5 10 0 0 demo_started
         = (fetched_urls evs ++ unlogged)%list
       ∧ (length unlogged ≤ 1)%nat
       ∧ (Return tt = Return tt → unlogged = []))
  ∧ ∃ st',
      run_bfs demo_urljoin demo_scheme faulty_world 5 10 demo_started
      = Some (Raise OSError, st')
      ∧ fetched_urls (output_area st') = ["https://x.test/"]
      ∧ popped demo_urljoin demo_scheme faulty_world 5 10 0 0 demo_started
        = ["https://x.test/"; "https://x.test/#section"]
      ∧ ∃ evs unlogged,
          output_area st' = (output_area demo_started ++ evs)%list
          ∧ popped demo_urljoin demo_scheme faulty_world 5 10 0 0 demo_started
            = (fetched_urls evs ++ unlogged)%list
          ∧ (length unlogged ≤ 1)%nat
          ∧ (Raise OSError = Return tt → unlogged = []).
Proof.
  assert (H : run_bfs demo_urljoin demo_scheme demo_world 5 10 demo_started
              = Some (Return tt, demo_finished)) by (vm_compute; reflexivity).
  split; [exact H|]. split; [reflexivity|].
  split.
  { exact (log_lists_the_fetches demo_urljoin demo_scheme demo_world
             5 10%nat demo_started (Return tt) demo_finished H). }
  eexists.
  assert (H' : run_bfs demo_urljoin demo_scheme faulty_world 5 10 demo_started
               = Some (Raise OSError, _)) by (vm_compute; reflexivity).
  split; [exact H'|]. split; [reflexivity|]. split; [vm_compute; reflexivity|].
  exact (log_lists_the_fetches demo_urljoin demo_scheme faulty_world
           5 10%nat demo_started (Raise OSError) _ H').
Defined.

(** X6, instance: what the first run on the small web crawled. *)
Lemma crawl_is_links_of_scraped_pages_witness :
  run_bfs demo_urljoin demo_scheme demo_world 5 10 demo_started
    = Some (Return tt, demo_finished)
  ∧ ∃ evs n,
      output_area demo_finished
      = (output_area demo_started ++ evs ++ [InfoFinished n])%list
      ∧ (popped demo_urljoin demo_scheme demo_world 5 10 0 0 demo_started
           ++ queue demo_finished)%list
        = (queue demo_started
             ++ new_urls (visited demo_started)
                  (discovered demo_urljoin demo_scheme demo_world
                     (scraped_pages evs)))%list
      ∧ visited demo_finished
        = list_to_set (discovered demo_urljoin demo_scheme demo_world
                         (scraped_pages evs))
            ∪ visited demo_started.
Proof.
  assert (H : run_bfs demo_urljoin demo_scheme demo_world 5 10 demo_started
              = Some (Return tt, demo_finished)) by (vm_compute; reflexivity).
  split; [exact H|].
  exact (crawl_is_links_of_scraped_pages demo_urljoin demo_scheme demo_world
           5 10%nat demo_started demo_finished H).
Defined.

(** X7, instance: the first run on the small web. *)
Lemma run_keeps_settings_witness :
  run_bfs demo_urljoin demo_scheme demo_world 5 10 demo_started
    = Some (Return tt, demo_finished)
  ∧ output_file demo_finished = output_file demo_started
  ∧ threads demo_finished = threads demo_started
  ∧ errors_shown demo_finished = errors_shown demo_started
  ∧ ∀ q, output_file demo_started ≠ q →
         file_content (disk demo_finished) q
         = file_content (disk demo_started) q.
Proof.
  assert (H : run_bfs demo_urljoin demo_scheme demo_world 5 10 demo_started
              = Some (Return tt, demo_finished)) by (vm_compute; reflexivity).
  split; [exact H|].
  exact (run_keeps_settings demo_urljoin demo_scheme demo_world
           5 10%nat demo_started (Return tt) demo_finished H).
Defined.


(** X9, instance: the budget entry [fifty]. *)
Lemma non_integer_budget_is_refused_witness :
  plain_entries (demo_form "fifty" false) = true
  ∧ PyStr.is_empty (PyStr.strip (url_entry (demo_form "fifty" false))) = false
  ∧ PyStr.int (max_pages_entry (demo_form "fifty" false)) = None
  ∧ ∃ st',
      start_scraping demo_world "20240101-130000" (demo_form "fifty" false)
        demo_midrun = (Return tt, st')
      ∧ errors_shown st'
        = (errors_shown demo_midrun ++ ["Max pages must be an integer."])%list
      ∧ disk st' = disk demo_midrun ∧ threads st' = threads demo_midrun
      ∧ running st' = running demo_midrun
      ∧ output_area st' = output_area demo_midrun
      ∧ queue st' = [] ∧ visited st' = ∅
      ∧ output_file st'
        = chosen_file "20240101-130000" (demo_form "fifty" false) demo_midrun.
Proof.
  split; [reflexivity|]. split; [reflexivity|]. split; [reflexivity|].
  exact (non_integer_budget_is_refused demo_world "20240101-130000"
           (demo_form "fifty" false) demo_midrun eq_refl eq_refl eq_refl).
Defined.

(** X10, instance: two starts one second apart. *)
Lemma timestamped_filenames_differ_witness :
  "20240101-120500" ≠ "20240101-120501"
  ∧ get_timestamped_filename "20240101-120500"
    ≠ get_timestamped_filename "20240101-120501".
Proof.
  assert (H : "20240101-120500" ≠ "20240101-120501") by discriminate.
  split; [exact H|].
  exact (proj2 (timestamped_filenames_differ "20240101-120500"
                  "20240101-120501") H).
Defined.

(** X11, instance: a second start, with a new file, after the first run. *)
Lemma new_file_start_keeps_earlier_corpus_witness :
  start_scraping demo_world "20240101-130000" (demo_form "5" false) demo_finished
    = (Return tt,
       started "20240101-130000" (demo_form "5" false) demo_finished 5)
  ∧ use_existing_var (demo_form "5" false) = false
  ∧ output_file demo_finished = get_timestamped_filename "20240101-120500"
  ∧ "20240101-130000" ≠ "20240101-120500"
  ∧ file_content
      (disk (started "20240101-130000" (demo_form "5" false) demo_finished 5))
      (output_file demo_finished)
    = file_content (disk demo_finished) (output_file demo_finished).
Proof.
  assert (H : start_scraping demo_world "20240101-130000" (demo_form "5" false)
                demo_finished
              = (Return tt,
                 started "20240101-130000" (demo_form "5" false)
                   demo_finished 5)) by (vm_compute; reflexivity).
  assert (Hne : "20240101-130000" ≠ "20240101-120500") by discriminate.
  split; [exact H|]. split; [reflexivity|]. split; [reflexivity|].
  split; [exact Hne|].
  exact (proj2 (new_file_start_keeps_earlier_corpus demo_world
                  "20240101-130000" "20240101-120500" (demo_form "5" false)
                  demo_finished _ _ H) eq_refl eq_refl Hne).
Defined.

(** X12, instance: blanks around the URL and the budget. *)
Lemma entries_are_stripped_witness :
  plain_entries (side_form "  https://x.test/solo " " 5 ") = true
  ∧ PyStr.strip "  https://x.test/solo " = "https://x.test/solo"
  ∧ PyStr.int_strip " 5 " = "5"
  ∧ start_scraping side_world "20240101-120500"
      {| url_entry := "https://x.test/solo"; max_pages_entry := "5";
         use_existing_var := false |} fresh_gui
    = start_scraping side_world "20240101-120500"
        (side_form "  https://x.test/solo " " 5 ") fresh_gui.
Proof.
  split; [reflexivity|]. split; [reflexivity|]. split; [reflexivity|].
  exact (proj1 (entries_are_stripped side_world "20240101-120500"
                  (side_form "  https://x.test/solo " " 5 ") fresh_gui
                  eq_refl)).
Defined.

(** X13, instance: the untouched form on the new object starts a run from
    the default URL with the default budget. *)
Lemma budget_text_is_read_back_witness :
  Z.of_nat (PyStr.digit_count (PyStr.of_Z 50)) ≤ PyStr.max_str_digits
  ∧ PyStr.of_Z 50 = "50"
  ∧ max_pages_entry default_form = PyStr.of_Z max_pages_default
  ∧ PyStr.ascii_edged (url_entry default_form) = true
  ∧ PyStr.is_empty (PyStr.strip (url_entry default_form)) = false
  ∧ open_w_fault demo_world
      (chosen_file "20240101-120500" default_form (init "20240101-120000" ∅))
    = None
  ∧ PyStr.int (PyStr.of_Z 50) = Some 50
  ∧ start_scraping demo_world "20240101-120500" default_form
      (init "20240101-120000" ∅)
    = (Return tt,
       started "20240101-120500" default_form (init "20240101-120000" ∅) 50)
  ∧ queue (started "20240101-120500" default_form (init "20240101-120000" ∅) 50)
    = ["https://www.wikipedia.org"].
Proof.
  assert (Hlen : Z.of_nat (PyStr.digit_count (PyStr.of_Z 50))
                 ≤ PyStr.max_str_digits) by (vm_compute; discriminate).
  split; [exact Hlen|]. split; [reflexivity|].
  split; [reflexivity|]. split; [reflexivity|].
  split; [reflexivity|]. split; [reflexivity|].
  pose proof (budget_text_is_read_back demo_world "20240101-120500"
                default_form (init "20240101-120000" ∅) 50 Hlen) as H.
  split; [exact (proj1 H)|].
  split; [|reflexivity].
  exact (proj1 (proj2 H eq_refl eq_refl eq_refl eq_refl)).
Defined.

(** X14, instance: a seed that refuses the connection. *)
Lemma failing_seed_ends_the_run_witness :
  0 < 5 ∧ stop_clicks side_world 0 = false ∧ stop_clicks side_world 1 = false
  ∧ requests_get side_world
      (PyStr.strip (url_entry (side_form "https://x.test/none" "5")))
    = RequestException "connection refused"
  ∧ ∃ st',
      run_bfs demo_urljoin demo_scheme side_world 5 2
        (started "20240101-120500" (side_form "https://x.test/none" "5")
           fresh_gui 5)
      = Some (Return tt, st')
      ∧ output_area st'
        = [InfoOutputFile
             (chosen_file "20240101-120500"
                (side_form "https://x.test/none" "5") fresh_gui);
           InfoStartingBFS
             (PyStr.strip (url_entry (side_form "https://x.test/none" "5")));
           ErrorLine
             (PyStr.strip (url_entry (side_form "https://x.test/none" "5")))
             "connection refused";
           InfoFinished 0]
      ∧ queue st' = [] ∧ running st' = false
      ∧ file_content (disk st')
          (chosen_file "20240101-120500"
             (side_form "https://x.test/none" "5") fresh_gui)
        = header.
Proof.
  split; [lia|]. split; [reflexivity|]. split; [reflexivity|].
  split; [reflexivity|].
  exact (failing_seed_ends_the_run demo_urljoin demo_scheme side_world
           "20240101-120500" (side_form "https://x.test/none" "5") fresh_gui
           5 "connection refused" 0%nat
           ltac:(lia) eq_refl eq_refl eq_refl).
Defined.

(** X15, instance: the page [https://x.test/bad]; its second link has an
    unclosed bracket. *)
Lemma rejected_link_ends_the_crawl_witness :
  PyStr.ascii_edged "Bad" = true
  ∧ links_resolve demo_urljoin demo_scheme "https://x.test/bad" [Some "/a"] = true
  ∧ rejected demo_urljoin demo_scheme "https://x.test/bad" "http://["
  ∧ ∃ st',
      (∀ fuel,
         run_bfs demo_urljoin demo_scheme side_world 5 (S fuel)
           (started "20240101-120500" (side_form "https://x.test/bad" "5")
              fresh_gui 5)
         = Some (Raise ValueError, st'))
      ∧ queue st' = ["https://x.test/a"]
      ∧ finished_count (output_area st') = 0%nat.
Proof.
  assert (Hres : links_resolve demo_urljoin demo_scheme "https://x.test/bad"
                   [Some "/a"] = true) by (vm_compute; reflexivity).
  assert (Hrej : rejected demo_urljoin demo_scheme "https://x.test/bad" "http://[").
  { split; [reflexivity|]. left. vm_compute. reflexivity. }
  split; [reflexivity|]. split; [exact Hres|]. split; [exact Hrej|].
  destruct (rejected_link_ends_the_crawl demo_urljoin demo_scheme side_world
              5 0%nat 0
              (started "20240101-120500" (side_form "https://x.test/bad" "5")
                 fresh_gui 5)
              "https://x.test/bad" []
              (Soup "Bad" [Some "/a"; Some "http://["; Some "/b"])
              [Some "/a"] "http://[" [Some "/b"]
              eq_refl eq_refl ltac:(lia) eq_refl eq_refl eq_refl eq_refl
              eq_refl Hres Hrej)
    as (st' & _ & Hrun & Hq & Hoa & _).
  exists st'. split; [exact (Hrun eq_refl eq_refl)|].
  split; [rewrite Hq; vm_compute; reflexivity|].
  rewrite Hoa. reflexivity.
Defined.

(** X16, instance: the page [https://x.test/solo] links to itself and to a
    mail address. *)
Lemma page_without_new_links_ends_the_run_witness :
  PyStr.ascii_edged " Solo " = true
  ∧ links_resolve demo_urljoin demo_scheme "https://x.test/solo"
    [Some "https://x.test/solo"; Some "mailto:a@b.com"] = true
  ∧ http_links demo_urljoin demo_scheme "https://x.test/solo"
      [Some "https://x.test/solo"; Some "mailto:a@b.com"]
    = ["https://x.test/solo"]
  ∧ ∃ st',
      run_bfs demo_urljoin demo_scheme side_world 5 2
        (started "20240101-120500" (side_form "https://x.test/solo" "5")
           fresh_gui 5)
      = Some (Return tt, st')
      ∧ last (output_area st') = Some (InfoFinished 1)
      ∧ queue st' = [].
Proof.
  assert (Hres : links_resolve demo_urljoin demo_scheme "https://x.test/solo"
                   [Some "https://x.test/solo"; Some "mailto:a@b.com"] = true)
    by (vm_compute; reflexivity).
  assert (Hl : http_links demo_urljoin demo_scheme "https://x.test/solo"
                 [Some "https://x.test/solo"; Some "mailto:a@b.com"]
               = ["https://x.test/solo"]) by (vm_compute; reflexivity).
  split; [reflexivity|]. split; [exact Hres|]. split; [exact Hl|].
  destruct (page_without_new_links_ends_the_run demo_urljoin demo_scheme
              side_world "20240101-120500"
              (side_form "https://x.test/solo" "5") fresh_gui 5
              (Soup " Solo " [Some "https://x.test/solo"; Some "mailto:a@b.com"])
              0%nat ltac:(lia) eq_refl eq_refl eq_refl eq_refl eq_refl Hres)
    as (st' & Hrun & Hoa & Hq & _).
  { intros x Hx. change (PyStr.strip _) with "https://x.test/solo" in Hx |- *.
    change (find_all_a _)
      with [Some "https://x.test/solo"; Some "mailto:a@b.com"] in Hx.
    rewrite Hl in Hx. now apply list_elem_of_singleton in Hx. }
  exists st'. split; [exact Hrun|]. split; [now rewrite Hoa | exact Hq].
Defined.

(** X17, instance: a mail link. *)
Lemma own_scheme_link_is_never_offered_witness :
  valid_scheme "mailto" = true
  ∧ Urllib.member (PyStr.lower "mailto") Urllib.uses_relative = false
  ∧ PyStr.startswith (PyStr.lower "mailto") "http" = false
  ∧ (follow_links demo_urljoin demo_scheme "https://x.test/"
       (Some ("mailto" ++ ":" ++ "a@b.com") :: []) fresh_gui
     = follow_links demo_urljoin demo_scheme "https://x.test/" [] fresh_gui
     ∨ follow_links demo_urljoin demo_scheme "https://x.test/"
         (Some ("mailto" ++ ":" ++ "a@b.com") :: []) fresh_gui
       = (Raise ValueError, fresh_gui)).
Proof.
  split; [reflexivity|]. split; [reflexivity|]. split; [reflexivity|].
  exact (own_scheme_link_is_never_offered (fun _ => true) "mailto" "a@b.com"
           "https://x.test/" [] fresh_gui eq_refl eq_refl eq_refl).
Defined.

(** X19, instance: the small web on a disk where no file can be created. *)
Lemma unwritable_corpus_starts_no_run_witness :
  plain_entries (demo_form "5" false) = true
  ∧ PyStr.is_empty (PyStr.strip (url_entry (demo_form "5" false))) = false
  ∧ PyStr.int (max_pages_entry (demo_form "5" false)) = Some 5
  ∧ open_w_fault readonly_world
      (chosen_file "20240101-120500" (demo_form "5" false) fresh_gui)
    = Some 0%nat
  ∧ ∃ st',
      start_scraping readonly_world "20240101-120500" (demo_form "5" false)
        fresh_gui = (Raise OSError, st')
      ∧ threads st' = threads fresh_gui ∧ running st' = running fresh_gui.
Proof.
  split; [reflexivity|].
  split; [reflexivity|]. split; [reflexivity|]. split; [reflexivity|].
  destruct (unwritable_corpus_starts_no_run readonly_world "20240101-120500"
              (demo_form "5" false) fresh_gui 5 0%nat
              eq_refl eq_refl eq_refl eq_refl)
    as (st' & H & Ht & Hr & _).
  exists st'. now split_and!.
Defined.

(** X20, instance: budgets 1 and 5 on the small web. *)
Lemma larger_budget_extends_the_crawl_witness :
  1 ≤ 5
  ∧ popped demo_urljoin demo_scheme demo_world 1 10 0 0 demo_started
    = ["https://x.test/"]
  ∧ ∃ more,
      popped demo_urljoin demo_scheme demo_world 5 10 0 0 demo_started
      = (popped demo_urljoin demo_scheme demo_world 1 10 0 0 demo_started
           ++ more)%list.
Proof.
  split; [lia|]. split; [vm_compute; reflexivity|].
  exact (larger_budget_extends_the_crawl demo_urljoin demo_scheme demo_world
           1 5 ltac:(lia) 10%nat 0%nat 0 demo_started).
Defined.
